(** * FastAPI_thickness: the per-request ingestion pipeline

    A shallow embedding of [FastAPI_thickness.py]: the six POST endpoints
    that stage an uploaded byte stream as a temporary file, hand the path
    to the [thickness_file] domain processor and answer with its result or
    with an error dictionary, together with [create_logger].

    The program is imperative: it mutates the filesystem, the registry of
    the [logging] module and a local variable, and it raises and catches
    exceptions.  It is embedded in a state-and-exception monad [M] over an
    explicit [State]; everything the program asks of its surroundings (the
    clock, the request body, the names drawn by [tempfile], system-call
    failures, the [thickness] library) is read from an [Env] record. *)

From Stdlib Require Import Strings.String Strings.Ascii Strings.Byte List NArith Lia.
From stdpp Require Import base option list strings gmap.
Import ListNotations.

(** ** Exceptions *)

(** Python separates the classes deriving from [Exception] from those that
    derive from [BaseException] only ([SystemExit], [KeyboardInterrupt],
    [GeneratorExit] and, since Python 3.8, [asyncio.CancelledError]).  An
    [except Exception] clause catches the former and lets the latter
    through. *)
Inductive exn_class := ExceptionSubclass | BaseExceptionOnly.

Record exn := mk_exn {
  exn_class_of : exn_class;
  exn_str : string            (* str(e) *)
}.

Definition isinstance_Exception (e : exn) : bool :=
  match exn_class_of e with
  | ExceptionSubclass => true
  | BaseExceptionOnly => false
  end.

(** What [os] and [tempfile] raise are [OSError]s, which derive from
    [Exception]. *)
Definition OSError (strerror : string) : exn := mk_exn ExceptionSubclass strerror.

Inductive Outcome (A : Type) :=
| Val (a : A)
| Exc (e : exn).
Arguments Val {A} a.
Arguments Exc {A} e.

(** ** The world the handlers run in *)

Abbreviation bytes := (list byte).

(** A record of the [logging] module: level number and message.  The
    [asctime] prefix the formatter adds is left out. *)
Record LogRecord := mk_record { levelno : nat; message : string }.

Definition NOTSET : nat := 0.
Definition INFO : nat := 20.
Definition WARNING : nat := 30.
Definition ERROR : nat := 40.

(** A [logging.Logger] object: its level and the log files of the
    [FileHandler]s attached to it, in the order they were added. *)
Record Logger := mk_logger { level : nat; handlers : list string }.

(** A trace of the calls that touch the staging directory, oldest first.
    [EvProcess p c] is the construction [thickness_file(p)], with [c] the
    content found on disk under [p] at that moment. *)
Inductive Event :=
| EvCreate (path : string)
| EvWrite (path : string) (data : bytes)
| EvClose (path : string)
| EvProcess (path : string) (content : option bytes)
| EvUnlink (path : string).

(** The staging side of the world: files on disk (log files apart), the
    open handles with their unflushed data, and the trace. *)
Record Disk := mk_disk {
  fs : gmap string bytes;
  open_files : gmap string bytes;
  trace : list Event
}.

(** The logging side: the registry [logging.Logger.manager.loggerDict],
    which lives as long as the process, and the log files.
    [log_open_error path] tells whether opening the log file [path] fails
    and with which message: no descriptor is left (no handler is ever
    closed), or [./Logs] is gone or not writable. *)
Record Logging := mk_logging {
  loggerDict : gmap string Logger;
  log_files : gmap string (list LogRecord);
  log_open_error : string -> option string
}.

Record World := mk_world {
  disk : Disk;
  logging : Logging
}.

(** The state of one handler invocation: its local variable [file_path],
    which is assigned inside [try] and in scope inside [except], and the
    world. *)
Record State := mk_state {
  file_path : option string;
  world : World
}.

(** ** The monad *)

Definition M (A : Type) : Type := State -> Outcome A * State.

#[global] Instance M_ret : MRet M := fun A a s => (Val a, s).

#[global] Instance M_bind : MBind M := fun A B k m s =>
  match m s with
  | (Val a, s') => k a s'
  | (Exc e, s') => (Exc e, s')
  end.

Definition raise {A : Type} (e : exn) : M A := fun s => (Exc e, s).

(** [try: body except Exception as e: handler e] *)
Definition try_except_Exception {A : Type} (body : M A) (handler : exn -> M A) : M A :=
  fun s =>
    match body s with
    | (Val a, s') => (Val a, s')
    | (Exc e, s') =>
        if isinstance_Exception e then handler e s' else (Exc e, s')
    end.

Definition get_disk : M Disk := fun s => (Val (disk (world s)), s).

Definition modify_disk (f : Disk -> Disk) : M unit :=
  fun s => (Val tt, mk_state (file_path s) (mk_world (f (disk (world s))) (logging (world s)))).

Definition get_logging : M Logging := fun s => (Val (logging (world s)), s).

Definition modify_logging (f : Logging -> Logging) : M unit :=
  fun s => (Val tt, mk_state (file_path s) (mk_world (disk (world s)) (f (logging (world s))))).

Definition set_file_path (p : option string) : M unit :=
  fun s => (Val tt, mk_state p (world s)).

Definition set_fs (f : gmap string bytes) (d : Disk) : Disk :=
  mk_disk f (open_files d) (trace d).

Definition set_open_files (o : gmap string bytes) (d : Disk) : Disk :=
  mk_disk (fs d) o (trace d).

Definition record_event (ev : Event) (d : Disk) : Disk :=
  mk_disk (fs d) (open_files d) (trace d ++ [ev]).

Definition set_loggerDict (r : gmap string Logger) (l : Logging) : Logging :=
  mk_logging r (log_files l) (log_open_error l).

Definition set_log_files (f : gmap string (list LogRecord)) (l : Logging) : Logging :=
  mk_logging (loggerDict l) f (log_open_error l).

(** ** dt.datetime and strftime *)

Record datetime := mk_datetime {
  year : N; month : N; day : N;
  hour : N; minute : N; second : N;
  microsecond : N
}.

Definition digit (n : N) : ascii := ascii_of_N (48 + n mod 10).

Definition pad2 (n : N) : string :=
  String (digit (n / 10)) (String (digit n) EmptyString).

Definition pad4 (n : N) : string :=
  String (digit (n / 1000)) (String (digit (n / 100)) (pad2 n)).

(** [t.strftime('%Y-%m-%d_%H-%M-%S')]: the microseconds are not rendered. *)
Definition strftime (t : datetime) : string :=
  pad4 (year t) +:+ "-" +:+ pad2 (month t) +:+ "-" +:+ pad2 (day t) +:+ "_" +:+
  pad2 (hour t) +:+ "-" +:+ pad2 (minute t) +:+ "-" +:+ pad2 (second t).

(** What every [datetime] satisfies (its fields are in fact tighter: a
    month is at most 12, an hour at most 23), and two readings of the clock
    within one second. *)
Definition valid_datetime (t : datetime) : Prop :=
  (year t < 10000 /\ month t < 100 /\ day t < 100 /\
   hour t < 100 /\ minute t < 100 /\ second t < 100)%N.

Definition same_second (t1 t2 : datetime) : Prop :=
  year t1 = year t2 /\ month t1 = month t2 /\ day t1 = day t2 /\
  hour t1 = hour t2 /\ minute t1 = minute t2 /\ second t1 = second t2.

(** ** The logging module *)

Definition log_directory : string := "./Logs".

Definition register_logger (name : string) (l : Logging) : Logging :=
  match loggerDict l !! name with
  | Some _ => l
  | None => set_loggerDict (<[name := mk_logger NOTSET []]> (loggerDict l)) l
  end.

(** [logging.getLogger(name)]: the logger registered under [name], created
    on first use.  The value handed back is a reference into the registry,
    modelled by the name. *)
Definition getLogger (name : string) : M string :=
  modify_logging (register_logger name);;
  mret name.

Definition setLevel (logger : string) (lvl : nat) : M unit :=
  modify_logging (fun l =>
    set_loggerDict (alter (fun o => mk_logger lvl (handlers o)) logger (loggerDict l)) l).

Definition open_log_file (path : string) (l : Logging) : Logging :=
  match log_files l !! path with
  | Some _ => l
  | None => set_log_files (<[path := []]> (log_files l)) l
  end.

(** [logging.FileHandler(path)]: opens [path] for appending at once,
    which creates the file when it is missing.  When the open fails, its
    [OSError] is raised and no handler comes into being. *)
Definition FileHandler (path : string) : M string :=
  l ← get_logging;
  match log_open_error l path with
  | Some strerror => raise (OSError strerror)
  | None =>
      modify_logging (open_log_file path);;
      mret path
  end.

(** [logger.addHandler(h)]: every [FileHandler] is a new object, so it is
    always appended. *)
Definition addHandler (logger : string) (h : string) : M unit :=
  modify_logging (fun l =>
    set_loggerDict
      (alter (fun o => mk_logger (level o) (handlers o ++ [h])) logger (loggerDict l)) l).

Definition emit (r : LogRecord) (files : gmap string (list LogRecord)) (path : string)
  : gmap string (list LogRecord) :=
  <[path := default [] (files !! path) ++ [r]]> files.

(** [Logger.getEffectiveLevel]: a logger left at [NOTSET] takes the level
    of the root logger, which is [WARNING] unless configured. *)
Definition getEffectiveLevel (o : Logger) : nat :=
  if level o =? NOTSET then WARNING else level o.

Definition handle_record (lvl : nat) (logger : string) (msg : string) (l : Logging)
  : Logging :=
  match loggerDict l !! logger with
  | Some o =>
      if getEffectiveLevel o <=? lvl
      then set_log_files (fold_left (emit (mk_record lvl msg)) (handlers o) (log_files l)) l
      else l
  | None => l
  end.

(** [logger.log(lvl, msg)]: when the logger is enabled for [lvl], every
    handler attached to it appends the record to its file.  The root
    logger has no handler of its own.  Failures inside a handler are
    swallowed by [logging] and never reach the caller. *)
Definition logger_log (lvl : nat) (logger : string) (msg : string) : M unit :=
  modify_logging (handle_record lvl logger msg).

Definition logger_info := logger_log INFO.
Definition logger_error := logger_log ERROR.

(** [create_logger()], given the reading [now] of [dt.datetime.now()]. *)
Definition create_logger (now : datetime) : M string :=
  let timestamp := strftime now in
  let log_file_path := log_directory +:+ "/" +:+ timestamp +:+ ".log" in
  logger ← getLogger timestamp;
  setLevel logger INFO;;
  file_handler ← FileHandler log_file_path;
  addHandler logger file_handler;;
  mret logger.

(** ** The surroundings of a request *)

Section Pipeline.

(** The result objects of the [thickness] library (tables, aggregate
    values, validity verdicts).  The library is not part of this program;
    the handlers pass its results through without looking at them. *)
Context {Value : Type}.

(** A [thickness_file] instance.  Its methods may read the disk. *)
Record Processor := mk_processor {
  table_of_df : gmap string bytes -> Outcome Value;
  thickness_ma_for_database : gmap string bytes -> Outcome Value;
  validity_check : gmap string bytes -> Outcome Value
}.

(** What one request meets outside the program.  [await request.body()]
    is a suspension point, at which the event loop may throw
    [asyncio.CancelledError] into the coroutine, and the [thickness]
    library is code of its own: both may raise any exception.  The calls
    into [tempfile] and [os] raise [OSError]s, given by their messages.
    The [thickness] library is taken to read the staging directory without
    changing it.  The text of [traceback.format_exc()] (header, stack
    frames, class and message of the exception, on several lines) depends
    on the call stack and is left to the surroundings. *)
Record Env := mk_env {
  now : datetime;                      (* dt.datetime.now() *)
  request_body : Outcome bytes;        (* await request.body() *)
  gettempdir : string;                 (* tempfile.gettempdir() *)
  candidate_names : list string;       (* the TMP_MAX names tempfile draws *)
  open_error : option string;          (* os.open fails, other than EEXIST *)
  write_error : option string;         (* temp_file.write fails *)
  close_error : option string;         (* temp_file.close fails *)
  thickness_file : string -> gmap string bytes -> Outcome Processor;
  unlink_error : option string;        (* os.unlink fails *)
  format_exc : exn -> string           (* traceback.format_exc() while handling *)
}.

(** What a handler returns: the processor's result object itself, or the
    dictionary [{"error": ..., "problematic_file": ...}].  The constructors
    are the two injections of that union, not a wrapper present at run
    time. *)
Inductive Response :=
| ProcessingResult (v : Value)
| ErrorRecord (error : string) (problematic_file : string).

Definition lift_outcome {A : Type} (o : Outcome A) : M A :=
  match o with
  | Val a => mret a
  | Exc e => raise e
  end.

(** ** tempfile and os *)

(** [os.path.join(dir, prefix + name + suffix)] with the default prefix. *)
Definition temp_path (dir name suffix : string) : string :=
  dir +:+ "/" +:+ "tmp" +:+ name +:+ suffix.

(** [tempfile._mkstemp_inner]: the first drawn name whose path does not
    exist yet is taken ([O_EXCL]); any other failure of [os.open] is
    raised at once; when every name is in use, [FileExistsError]. *)
Fixpoint mkstemp_inner (dir suffix : string) (names : list string)
    (err : option string) (files : gmap string bytes) : Outcome string :=
  match names with
  | [] => Exc (OSError "[Errno 17] No usable temporary file name found")
  | name :: names' =>
      let file := temp_path dir name suffix in
      match files !! file with
      | Some _ => mkstemp_inner dir suffix names' err files
      | None =>
          match err with
          | Some strerror => Exc (OSError strerror)
          | None => Val file
          end
      end
  end.

Definition create_file (file : string) (d : Disk) : Disk :=
  record_event (EvCreate file)
    (set_open_files (<[file := []]> (open_files d))
      (set_fs (<[file := []]> (fs d)) d)).

(** [tempfile.NamedTemporaryFile(delete=False, suffix=suffix)]: creates an
    empty file and leaves it open.  The object handed back is modelled by
    its [name]. *)
Definition NamedTemporaryFile (env : Env) (suffix : string) : M string :=
  d ← get_disk;
  file ← lift_outcome
    (mkstemp_inner (gettempdir env) suffix (candidate_names env) (open_error env) (fs d));
  modify_disk (create_file file);;
  mret file.

Definition buffer_data (file : string) (data : bytes) (d : Disk) : Disk :=
  record_event (EvWrite file data)
    (set_open_files (alter (fun buf => buf ++ data) file (open_files d)) d).

(** [temp_file.write(data)]: the data goes to the buffer of the handle.
    How much of it has reached the disk before [close] is not modelled. *)
Definition temp_file_write (env : Env) (temp_file : string) (data : bytes) : M unit :=
  match write_error env with
  | Some strerror => raise (OSError strerror)
  | None => modify_disk (buffer_data temp_file data)
  end.

Definition release_handle (file : string) (d : Disk) : Disk :=
  set_open_files (delete file (open_files d)) d.

Definition flush_and_release (file : string) (d : Disk) : Disk :=
  match open_files d !! file with
  | Some buf =>
      record_event (EvClose file)
        (release_handle file
          (set_fs (<[file := default [] (fs d !! file) ++ buf]> (fs d)) d))
  | None => d
  end.

(** [temp_file.close()]: flushes the buffer to the file and releases the
    handle; the handle is released also when the flush fails. *)
Definition temp_file_close (env : Env) (temp_file : string) : M unit :=
  match close_error env with
  | Some strerror =>
      modify_disk (release_handle temp_file);;
      raise (OSError strerror)
  | None => modify_disk (flush_and_release temp_file)
  end.

Definition remove_file (path : string) (d : Disk) : Disk :=
  record_event (EvUnlink path) (set_fs (delete path (fs d)) d).

(** [os.unlink(path)] *)
Definition os_unlink (env : Env) (path : string) : M unit :=
  match unlink_error env with
  | Some strerror => raise (OSError strerror)
  | None =>
      d ← get_disk;
      match fs d !! path with
      | Some _ => modify_disk (remove_file path)
      | None => raise (OSError ("[Errno 2] No such file or directory: '" +:+ path +:+ "'"))
      end
  end.

(** ** The request and the domain processor *)

Definition await_request_body (env : Env) : M bytes :=
  lift_outcome (request_body env).

(** [thickness_file(path)] *)
Definition new_thickness_file (env : Env) (path : string) : M Processor :=
  d ← get_disk;
  modify_disk (record_event (EvProcess path (fs d !! path)));;
  lift_outcome (thickness_file env path (fs d)).

Inductive Method := Table_of_df | Thickness_ma_for_database | Validity_check.

Definition call (m : Method) (new_file : Processor) (files : gmap string bytes)
  : Outcome Value :=
  match m with
  | Table_of_df => table_of_df new_file files
  | Thickness_ma_for_database => thickness_ma_for_database new_file files
  | Validity_check => validity_check new_file files
  end.

Definition call_method (m : Method) (new_file : Processor) : M Value :=
  d ← get_disk;
  lift_outcome (call m new_file (fs d)).

(** ** The six endpoints *)

(** The routes registered with [@app.post].  Four handlers of the source
    share the name [Incoming_stream_processing_to_get_DataTable] and two
    the name [validation_of_incoming_file]; the decorator registers each
    before the next definition rebinds the name, so all six are served. *)
Inductive DataRoute :=
| xlsx_tablebody             (* /thickness/xlsx/data/tablebody *)
| txt_tablebody              (* /thickness/txt/data/tablebody *)
| xlsx_databasevaluesbody    (* /thickness/xlsx/data/databasevaluesbody *)
| txt_databasevaluesbody.    (* /thickness/txt/data/databasevaluesbody *)

Inductive ValidationRoute :=
| xlsx_validation_body       (* /thickness/xlsx/validation/body *)
| txt_validation_body.       (* /thickness/txt/validation/body *)

Inductive Endpoint :=
| Data (r : DataRoute)
| Validation (r : ValidationRoute).

Definition route (ep : Endpoint) : string :=
  match ep with
  | Data xlsx_tablebody => "/thickness/xlsx/data/tablebody"
  | Data txt_tablebody => "/thickness/txt/data/tablebody"
  | Data xlsx_databasevaluesbody => "/thickness/xlsx/data/databasevaluesbody"
  | Data txt_databasevaluesbody => "/thickness/txt/data/databasevaluesbody"
  | Validation xlsx_validation_body => "/thickness/xlsx/validation/body"
  | Validation txt_validation_body => "/thickness/txt/validation/body"
  end.

(** What differs between the six handler bodies: the suffix given to
    [NamedTemporaryFile], the method called and the texts logged. *)
Record HandlerText := mk_text {
  suffix : string;
  method : Method;
  msg_received : string;
  msg_created : string;      (* followed by the path *)
  msg_processed : string;
  msg_deleted : string;      (* followed by the path *)
  msg_error : string         (* followed by str(e) *)
}.

Definition data_text (r : DataRoute) : HandlerText :=
  match r with
  | xlsx_tablebody =>
      mk_text ".xlsx" Table_of_df
        "Received XLSX data table request."
        "Temporary XLSX file created at "
        "Processed XLSX file and generated DataTable."
        "Temporary XLSX file deleted at "
        "Error processing XLSX data table: "
  | txt_tablebody =>
      mk_text ".txt" Table_of_df
        "Received TXT data table request."
        "Temporary TXT file created: "
        "Processed txt file and generated DataTable."
        "Temporary TXT file deleted at "
        "Error processing TXT data table: "
  | xlsx_databasevaluesbody =>
      mk_text ".txt" Thickness_ma_for_database
        "Received XLSX data table request."
        "Temporary XLSX file created: "
        "Processed XLSX file and generated DataTable."
        "Temporary XLSX file deleted at "
        "Error processing XLSX database values: "
  | txt_databasevaluesbody =>
      mk_text ".txt" Thickness_ma_for_database
        "Received TXT database values request."
        "Temporary file created: "
        "Processed TXT file and generated DataTable."
        "Temporary TXT file deleted at "
        "Error processing txt database values: "
  end.

Definition validation_text (r : ValidationRoute) : HandlerText :=
  match r with
  | xlsx_validation_body =>
      mk_text ".xlsx" Validity_check
        "Received xlsx validation request."
        "Temporary file created: "
        "Processed xlsx file and generated DataTable."
        "Temporary xlsx file deleted at "
        "Error processing xlsx database values: "
  | txt_validation_body =>
      mk_text ".xlsx" Validity_check
        "Received txt validation request."
        "Temporary file created: "
        "Processed txt file and generated DataTable."
        "Temporary txt file deleted at "
        "Error processing txt database values: "
  end.

(** The statements of [try:] that follow [await request.body()], up to
    [return] (lines 115 to 134 of the first handler).  None of them
    suspends. *)
Definition after_await (t : HandlerText) (env : Env) (logger : string) (byte_data : bytes)
  : M Response :=
  temp_file ← NamedTemporaryFile env (suffix t);
  temp_file_write env temp_file byte_data;;
  temp_file_close env temp_file;;
  let path := temp_file in
  set_file_path (Some path);;
  logger_info logger (msg_received t);;
  logger_info logger (msg_created t +:+ path);;
  new_file ← new_thickness_file env path;
  result ← call_method (method t) new_file;
  logger_info logger (msg_processed t);;
  os_unlink env path;;
  logger_info logger (msg_deleted t +:+ path);;
  mret (ProcessingResult result).

(** The statements inside [except Exception as e:]. *)
Definition except_block (t : HandlerText) (env : Env) (logger : string) (e : exn)
  : M Response :=
  let error_file_path := "Temporary file not created" in
  logger_error logger (msg_error t +:+ exn_str e);;
  logger_error logger (format_exc env e);;
  mret (ErrorRecord (exn_str e) error_file_path).

(** The statements inside [try:]. *)
Definition try_block (t : HandlerText) (env : Env) (logger : string) : M Response :=
  byte_data ← await_request_body env;
  after_await t env logger byte_data.

(** The body shared by the six handlers. *)
Definition handler_body (t : HandlerText) (env : Env) : M Response :=
  set_file_path None;;
  logger ← create_logger (now env);
  try_except_Exception (try_block t env logger) (except_block t env logger).

(** A handler from the moment [await request.body()] returns or raises to
    its end.  The await is the one suspension point of a handler: up to
    it, and from it on, a handler runs with no other request in between,
    and while it waits other requests are served. *)
Definition resume (t : HandlerText) (env : Env) (logger : string) : M Response :=
  try_except_Exception
    (byte_data ← lift_outcome (request_body env);
     after_await t env logger byte_data)
    (except_block t env logger).

Definition Incoming_stream_processing_to_get_DataTable (r : DataRoute) (env : Env)
  : M Response :=
  handler_body (data_text r) env.

Definition validation_of_incoming_file (r : ValidationRoute) (env : Env) : M Response :=
  handler_body (validation_text r) env.

Definition handler_text (ep : Endpoint) : HandlerText :=
  match ep with
  | Data r => data_text r
  | Validation r => validation_text r
  end.

(** The application: the handler registered for [ep]. *)
Definition app (ep : Endpoint) (env : Env) : M Response :=
  match ep with
  | Data r => Incoming_stream_processing_to_get_DataTable r env
  | Validation r => validation_of_incoming_file r env
  end.

(** ** The stages of a request, read off the surroundings *)

(** The statements of [try_block] fall into reading the body (line 112 of
    the first handler), staging (lines 115 to 121), processing (lines 128
    to 130) and release (line 133).  The outcome of each stage is a
    function of [env] and of the files on disk. *)
Inductive Stage := Ingestion | Staging | Processing.

(** Lines 115 to 121: the path of the staged file, or what was raised. *)
Definition staging_outcome (env : Env) (suffix : string) (files : gmap string bytes)
  : Outcome string :=
  match mkstemp_inner (gettempdir env) suffix (candidate_names env) (open_error env) files with
  | Exc e => Exc e
  | Val file =>
      match write_error env with
      | Some strerror => Exc (OSError strerror)
      | None =>
          match close_error env with
          | Some strerror => Exc (OSError strerror)
          | None => Val file
          end
      end
  end.

(** Lines 128 to 130: construction and method call. *)
Definition processing_outcome (env : Env) (m : Method) (file : string)
    (files : gmap string bytes) : Outcome Value :=
  match thickness_file env file files with
  | Exc e => Exc e
  | Val new_file => call m new_file files
  end.

(** The first exception raised by ingestion, staging or processing, with
    the stage it comes from; [None] when the three go through. *)
Definition raised (t : HandlerText) (env : Env) (files : gmap string bytes)
  : option (Stage * exn) :=
  match request_body env with
  | Exc e => Some (Ingestion, e)
  | Val data =>
      match staging_outcome env (suffix t) files with
      | Exc e => Some (Staging, e)
      | Val file =>
          match processing_outcome env (method t) file (<[file := data]> files) with
          | Exc e => Some (Processing, e)
          | Val _ => None
          end
      end
  end.

(** No exception outside [Exception] is raised by the three stages. *)
Definition only_Exception_raised (t : HandlerText) (env : Env) (files : gmap string bytes)
  : bool :=
  match raised t env files with
  | Some (_, e) => isinstance_Exception e
  | None => true
  end.

Definition is_processing_result (r : Response) : bool :=
  match r with
  | ProcessingResult _ => true
  | ErrorRecord _ _ => false
  end.

Definition is_error_record (r : Response) : bool :=
  match r with
  | ProcessingResult _ => false
  | ErrorRecord _ _ => true
  end.

(** ** The ways a request can go *)

(** The disk once the upload is staged under [file], and once the
    processor has been constructed on it. *)
Definition staged (file : string) (data : bytes) (d : Disk) : Disk :=
  mk_disk (<[file := data]> (fs d)) (delete file (open_files d))
          (trace d ++ [EvCreate file; EvWrite file data; EvClose file]).

Definition processed (file : string) (data : bytes) (d : Disk) : Disk :=
  record_event (EvProcess file (Some data)) (staged file data d).

(** What [except Exception] makes of an exception leaving [try]. *)
Definition caught (e : exn) : Outcome Response :=
  if isinstance_Exception e
  then Val (ErrorRecord (exn_str e) "Temporary file not created")
  else Exc e.

(** [Run t env oe d o p d']: from disk [d], with [oe] what opening the log
    file of the request gives, a handler with text [t] ends with outcome
    [o], its variable [file_path] holding [p], on disk [d'].  One
    constructor per statement that can raise, and one for success; the
    first is [create_logger], which is called before [try]. *)
Inductive Run (t : HandlerText) (env : Env) (oe : option string) (d : Disk)
  : Outcome Response -> option string -> Disk -> Prop :=
| run_open_fails msg :
    oe = Some msg ->
    Run t env oe d (Exc (OSError msg)) None d
| run_ingestion_fails e :
    oe = None ->
    request_body env = Exc e ->
    Run t env oe d (caught e) None d
| run_no_file data e :
    oe = None ->
    request_body env = Val data ->
    mkstemp_inner (gettempdir env) (suffix t) (candidate_names env) (open_error env) (fs d)
      = Exc e ->
    Run t env oe d (caught e) None d
| run_write_fails data file msg :
    oe = None ->
    request_body env = Val data ->
    mkstemp_inner (gettempdir env) (suffix t) (candidate_names env) (open_error env) (fs d)
      = Val file ->
    write_error env = Some msg ->
    Run t env oe d (caught (OSError msg)) None (create_file file d)
| run_close_fails data file msg :
    oe = None ->
    request_body env = Val data ->
    mkstemp_inner (gettempdir env) (suffix t) (candidate_names env) (open_error env) (fs d)
      = Val file ->
    write_error env = None ->
    close_error env = Some msg ->
    Run t env oe d (caught (OSError msg)) None
      (release_handle file (buffer_data file data (create_file file d)))
| run_constructor_fails data file e :
    oe = None ->
    request_body env = Val data ->
    mkstemp_inner (gettempdir env) (suffix t) (candidate_names env) (open_error env) (fs d)
      = Val file ->
    write_error env = None ->
    close_error env = None ->
    thickness_file env file (<[file := data]> (fs d)) = Exc e ->
    Run t env oe d (caught e) (Some file) (processed file data d)
| run_method_fails data file new_file e :
    oe = None ->
    request_body env = Val data ->
    mkstemp_inner (gettempdir env) (suffix t) (candidate_names env) (open_error env) (fs d)
      = Val file ->
    write_error env = None ->
    close_error env = None ->
    thickness_file env file (<[file := data]> (fs d)) = Val new_file ->
    call (method t) new_file (<[file := data]> (fs d)) = Exc e ->
    Run t env oe d (caught e) (Some file) (processed file data d)
| run_unlink_fails data file new_file v msg :
    oe = None ->
    request_body env = Val data ->
    mkstemp_inner (gettempdir env) (suffix t) (candidate_names env) (open_error env) (fs d)
      = Val file ->
    write_error env = None ->
    close_error env = None ->
    thickness_file env file (<[file := data]> (fs d)) = Val new_file ->
    call (method t) new_file (<[file := data]> (fs d)) = Val v ->
    unlink_error env = Some msg ->
    Run t env oe d (caught (OSError msg)) (Some file) (processed file data d)
| run_success data file new_file v :
    oe = None ->
    request_body env = Val data ->
    mkstemp_inner (gettempdir env) (suffix t) (candidate_names env) (open_error env) (fs d)
      = Val file ->
    write_error env = None ->
    close_error env = None ->
    thickness_file env file (<[file := data]> (fs d)) = Val new_file ->
    call (method t) new_file (<[file := data]> (fs d)) = Val v ->
    unlink_error env = None ->
    Run t env oe d (Val (ProcessingResult v)) (Some file)
      (remove_file file (processed file data d)).

End Pipeline.

Arguments Processor Value : clear implicits.
Arguments Env Value : clear implicits.
Arguments Response Value : clear implicits.

(** The events a run from [s] to [s'] added to the trace. *)
Definition events_of_run (s s' : State) : list Event :=
  drop (length (trace (disk (world s)))) (trace (disk (world s'))).

(** ** Format hints *)

(** The format an endpoint is registered for, read off its route, and the
    suffix that goes with a format. *)
Inductive Format := Spreadsheet | Text.

Definition format_hint (ep : Endpoint) : Format :=
  if String.prefix "/thickness/xlsx/" (route ep) then Spreadsheet else Text.

Definition suffix_of_format (f : Format) : string :=
  match f with
  | Spreadsheet => ".xlsx"
  | Text => ".txt"
  end.

(** [s.endswith(suf)] *)
Fixpoint has_suffix (suf s : string) : bool :=
  if String.eqb s suf then true
  else match s with
       | EmptyString => false
       | String _ s' => has_suffix suf s'
       end.

(** The processor call that the specification's table of operations
    lists for each endpoint: [table_of_df] for the table endpoints,
    [thickness_ma_for_database] for the aggregate endpoints,
    [validity_check] for the validation endpoints. *)
Definition processor_call (ep : Endpoint) : Method :=
  match ep with
  | Data xlsx_tablebody | Data txt_tablebody => Table_of_df
  | Data xlsx_databasevaluesbody | Data txt_databasevaluesbody => Thickness_ma_for_database
  | Validation _ => Validity_check
  end.

(** ** Sample requests *)

(** A process that has served nothing yet, a clock reading, an upload, and
    a stand-in for the [thickness] library that refuses an empty file. *)
Definition empty_world : World :=
  mk_world (mk_disk ∅ ∅ []) (mk_logging ∅ ∅ (fun _ => None)).

Definition initial_state : State := mk_state None empty_world.

Definition clock : datetime := mk_datetime 2024 5 17 10 30 0 100.

Definition upload : bytes := [x31; x2e; x35; x0a].

Definition sample_processor : Processor string :=
  mk_processor (fun _ => Val "table")
               (fun _ => Val "thickness_MA_values")
               (fun _ => Val "validation_status").

Definition sample_library (path : string) (files : gmap string bytes)
  : Outcome (Processor string) :=
  match files !! path with
  | None => Exc (mk_exn ExceptionSubclass "No such file or directory")
  | Some [] => Exc (mk_exn ExceptionSubclass "No columns to parse from file")
  | Some _ => Val sample_processor
  end.

(** A rendering of [traceback.format_exc()]. *)
Definition sample_format_exc (e : exn) : string :=
  "Traceback (most recent call last):" +:+ String (ascii_of_nat 10)
    ("  File FastAPI_thickness.py, line 128, in Incoming_stream_processing_to_get_DataTable"
     +:+ String (ascii_of_nat 10) ("ValueError: " +:+ exn_str e)).

Definition env_upload : Env string :=
  mk_env clock (Val upload) "/tmp" ["abcd1234"; "efgh5678"]
         None None None sample_library None sample_format_exc.

Definition env_empty_upload : Env string :=
  mk_env clock (Val []) "/tmp" ["abcd1234"; "efgh5678"]
         None None None sample_library None sample_format_exc.

Definition env_unlink_denied : Env string :=
  mk_env clock (Val upload) "/tmp" ["abcd1234"; "efgh5678"]
         None None None sample_library (Some "[Errno 13] Permission denied")
         sample_format_exc.

(** [asyncio.CancelledError], whose [str] is empty. *)
Definition CancelledError : exn := mk_exn BaseExceptionOnly EmptyString.

Definition env_cancelled : Env string :=
  mk_env clock (Exc CancelledError) "/tmp" ["abcd1234"; "efgh5678"]
         None None None sample_library None sample_format_exc.

(** A second reading of the clock, within the same second as [clock]. *)
Definition clock_later : datetime := mk_datetime 2024 5 17 10 30 0 900000.

(** ** The log of a request *)

(** The log file [create_logger] gives the logger called [name]. *)
Definition log_path (name : string) : string :=
  log_directory +:+ "/" +:+ name +:+ ".log".

(** The handlers of the logger registered under [name]; none when no
    such logger is registered. *)
Definition handlers_of (l : Logging) (name : string) : list string :=
  match loggerDict l !! name with
  | Some o => handlers o
  | None => []
  end.

(** Every handler of every registered logger writes to the log file that
    goes with the name of its logger. *)
Definition registry_ok (l : Logging) : Prop :=
  forall name o, loggerDict l !! name = Some o ->
    forall h, In h (handlers o) -> h = log_path name.


(** The record [r] through the logger [name]. *)
Definition log_one (name : string) (l : Logging) (r : LogRecord) : Logging :=
  handle_record (levelno r) name (message r) l.

(** What opening the log file of the reading [now] of the clock gives in
    [s]: the message of the [OSError], or [None] when the file opens. *)
Definition log_open (now : datetime) (s : State) : option string :=
  log_open_error (logging (world s)) (log_path (strftime now)).

(** [create_logger] returns its logger. *)
Definition logger_created (now : datetime) (s : State) : Prop :=
  fst (create_logger now s) = Val (strftime now).

Section Audit.

Context {Value : Type}.

(** The two records of [except_block]; an exception that [except
    Exception] does not catch is not logged. *)
Definition error_records (t : HandlerText) (env : Env Value) (e : exn) : list LogRecord :=
  if isinstance_Exception e
  then [mk_record ERROR (msg_error t +:+ exn_str e); mk_record ERROR (format_exc env e)]
  else [].

(** The records a handler passes to its logger, in order, read off
    [try_block] and [except_block]. *)
Definition audit_records (t : HandlerText) (env : Env Value) (files : gmap string bytes)
  : list LogRecord :=
  match request_body env with
  | Exc e => error_records t env e
  | Val data =>
      match staging_outcome env (suffix t) files with
      | Exc e => error_records t env e
      | Val file =>
          [mk_record INFO (msg_received t); mk_record INFO (msg_created t +:+ file)] ++
          match processing_outcome env (method t) file (<[file := data]> files) with
          | Exc e => error_records t env e
          | Val _ =>
              mk_record INFO (msg_processed t) ::
              match unlink_error env with
              | Some strerror => error_records t env (OSError strerror)
              | None => [mk_record INFO (msg_deleted t +:+ file)]
              end
          end
      end
  end.

End Audit.

(** ** Further sample requests *)

(** A disk that is full when the upload is written, and a state with a
    file already in the temporary directory. *)
Definition env_disk_full : Env string :=
  mk_env clock (Val upload) "/tmp" ["abcd1234"; "efgh5678"]
         None (Some "[Errno 28] No space left on device") None sample_library None
         sample_format_exc.

(** A process that has run out of descriptors, and a request of the day
    before. *)
Definition state_without_descriptors : State :=
  mk_state None
    (mk_world (mk_disk ∅ ∅ [])
              (mk_logging ∅ ∅ (fun _ => Some "[Errno 24] Too many open files"))).

Definition env_day_before : Env string :=
  mk_env (mk_datetime 2024 5 16 9 0 0 0) (Val upload) "/tmp" ["abcd1234"; "efgh5678"]
         None None None sample_library None sample_format_exc.

(** The world a request finds when its body has arrived: its logger is
    created; and the same when another request, arriving within the same
    second while the first waited for its body, has created its logger
    too. *)
Definition state_on_resume : State := snd (create_logger clock initial_state).


(** The world a request of the day before has left. *)
Definition state_next_day : State :=
  snd (app (Data txt_tablebody) env_day_before initial_state).

Definition state_with_file : State :=
  mk_state None
    (mk_world (mk_disk {["/tmp/tmpabcd1234.xlsx" := [x00]]} ∅ [])
              (mk_logging ∅ ∅ (fun _ => None))).


(** * Facts *)

Section Facts.

Context {Value : Type}.
Implicit Types (env : Env Value) (s : State) (t : HandlerText) (d : Disk).
Implicit Types (ep : Endpoint) (files : gmap string bytes).

(** ** tempfile *)

Lemma mkstemp_inner_fresh dir suf names err files file :
  mkstemp_inner dir suf names err files = Val file ->
  files !! file = None /\ exists name, In name names /\ file = temp_path dir name suf.
Proof.
  induction names as [|n names IH]; simpl; [discriminate|].
  destruct (files !! temp_path dir n suf) eqn:E.
  - intros H. destruct (IH H) as (? & name & ? & ?). eauto.
  - destruct err; [discriminate|]. intros [= <-]. eauto.
Qed.

Lemma mkstemp_inner_raises dir suf names err files e :
  mkstemp_inner dir suf names err files = Exc e -> isinstance_Exception e = true.
Proof.
  induction names as [|n names IH]; simpl.
  - intros [= <-]. reflexivity.
  - destruct (files !! temp_path dir n suf); [exact IH|].
    destruct err; [|discriminate]. intros [= <-]. reflexivity.
Qed.

Lemma staged_disk file data d :
  flush_and_release file (buffer_data file data (create_file file d)) = staged file data d.
Proof.
  unfold flush_and_release, buffer_data, create_file, release_handle,
    record_event, set_open_files, set_fs, staged. cbn [fs open_files trace].
  rewrite lookup_alter_eq, !lookup_insert_eq. cbn.
  rewrite insert_insert_eq, delete_alter_eq, delete_insert_eq, <- !app_assoc.
  reflexivity.
Qed.

(** ** create_logger *)

Lemma register_logger_open name l :
  log_open_error (register_logger name l) = log_open_error l.
Proof. unfold register_logger. destruct (loggerDict l !! name); reflexivity. Qed.

(** [create_logger] raises the [OSError] of the open when the log file
    cannot be opened, and hands back the logger named after the rendered
    timestamp otherwise; it leaves [file_path] and the disk alone. *)
Lemma create_logger_run now s :
  exists L, create_logger now s =
    (match log_open now s with
     | Some msg => Exc (OSError msg)
     | None => Val (strftime now)
     end, mk_state (file_path s) (mk_world (disk (world s)) L)).
Proof.
  unfold log_open, log_path.
  destruct (log_open_error _ _) eqn:E; eexists;
    unfold create_logger, getLogger, setLevel, FileHandler, set_loggerDict;
    cbv beta iota delta [mbind M_bind mret M_ret get_logging modify_logging raise];
    cbn [file_path world disk logging fst snd log_open_error];
    rewrite register_logger_open, E; reflexivity.
Qed.

Lemma logger_created_open now s : logger_created now s <-> log_open now s = None.
Proof.
  unfold logger_created. destruct (create_logger_run now s) as [L ->]. cbn [fst].
  destruct (log_open now s); split; (discriminate || reflexivity).
Qed.

(** ** Every run of a handler is one of the nine of [Run] *)

Ltac run_M :=
  cbv beta iota delta [mbind M_bind mret M_ret get_disk modify_disk modify_logging
    set_file_path lift_outcome raise logger_info logger_error logger_log];
  cbn [file_path world disk logging fst snd].

Ltac finish_caught e R :=
  unfold caught in R; destruct (isinstance_Exception e); run_M;
  do 3 eexists; (split; [reflexivity|]); cbn [file_path world disk];
  (split; [exact R|reflexivity]).

(** From the await on: one of the eight ways of [Run] that follow
    [create_logger].  [file_path] is assigned once staging is through. *)
Lemma resume_run t env logger s :
  exists o s' p, resume t env logger s = (o, s') /\
    Run t env None (disk (world s)) o p (disk (world s')) /\
    file_path s' = match p with Some file => Some file | None => file_path s end.
Proof.
  assert (Hopen' : @None string = None) by reflexivity.
  unfold resume, try_except_Exception, after_await, except_block. run_M.
  destruct (request_body env) as [data|e] eqn:Hbody; run_M.
  2:{ pose proof (run_ingestion_fails t env None (disk (world s)) e Hopen' Hbody) as R.
      finish_caught e R. }
  unfold NamedTemporaryFile. run_M.
  destruct (mkstemp_inner _ _ _ _ _) as [file|e] eqn:Hmk; run_M.
  2:{ pose proof (run_no_file t env None _ data e Hopen' Hbody Hmk) as R.
      finish_caught e R. }
  unfold temp_file_write.
  destruct (write_error env) as [msg|] eqn:Hwrite; run_M.
  1:{ pose proof (run_write_fails t env None _ data file msg Hopen' Hbody Hmk Hwrite) as R.
      finish_caught (OSError msg) R. }
  unfold temp_file_close.
  destruct (close_error env) as [msg|] eqn:Hclose; run_M.
  1:{ pose proof (run_close_fails t env None _ data file msg Hopen' Hbody Hmk Hwrite Hclose) as R.
      finish_caught (OSError msg) R. }
  rewrite staged_disk.
  unfold new_thickness_file. run_M.
  assert (Hfs : fs (staged file data (disk (world s)))
                = <[file := data]> (fs (disk (world s)))) by reflexivity.
  rewrite !Hfs, lookup_insert_eq. fold (processed file data (disk (world s))).
  destruct (thickness_file env file _) as [new_file|e] eqn:Hctor; run_M.
  2:{ pose proof (run_constructor_fails t env None _ data file e
                    Hopen' Hbody Hmk Hwrite Hclose Hctor) as R.
      finish_caught e R. }
  unfold call_method. run_M.
  assert (Hfs' : fs (processed file data (disk (world s)))
                 = <[file := data]> (fs (disk (world s)))) by reflexivity.
  rewrite !Hfs'.
  destruct (call _ _ _) as [v|e] eqn:Hcall; run_M.
  2:{ pose proof (run_method_fails t env None _ data file new_file e
                    Hopen' Hbody Hmk Hwrite Hclose Hctor Hcall) as R.
      finish_caught e R. }
  unfold os_unlink.
  destruct (unlink_error env) as [msg|] eqn:Hunlink; run_M.
  1:{ pose proof (run_unlink_fails t env None _ data file new_file v msg
                    Hopen' Hbody Hmk Hwrite Hclose Hctor Hcall Hunlink) as R.
      finish_caught (OSError msg) R. }
  rewrite Hfs', lookup_insert_eq. run_M.
  do 3 eexists. split; [reflexivity|]. cbn [file_path world disk].
  split; [eapply run_success; eassumption|reflexivity].
Qed.

(** A handler is [create_logger] and, when it returns, what follows the
    await. *)
Lemma handler_body_resume t env s :
  handler_body t env s =
    match fst (create_logger (now env) (mk_state None (world s))) with
    | Val logger => resume t env logger (snd (create_logger (now env) (mk_state None (world s))))
    | Exc e => (Exc e, snd (create_logger (now env) (mk_state None (world s))))
    end.
Proof.
  unfold handler_body, resume, try_block, await_request_body. run_M.
  destruct (create_logger _ _) as [[logger|e] s']; reflexivity.
Qed.

Lemma handler_body_run t env s :
  exists o s', handler_body t env s = (o, s') /\
    Run t env (log_open (now env) s) (disk (world s)) o (file_path s') (disk (world s')).
Proof.
  rewrite handler_body_resume.
  destruct (create_logger_run (now env) (mk_state None (world s))) as [L ->].
  change (log_open (now env) (mk_state None (world s))) with (log_open (now env) s).
  cbn [fst snd file_path world disk].
  destruct (log_open (now env) s) as [msg|] eqn:Hopen.
  - do 2 eexists. split; [reflexivity|]. cbn [file_path world disk].
    apply run_open_fails. reflexivity.
  - destruct (resume_run t env (strftime (now env))
                (mk_state None (mk_world (disk (world s)) L))) as (o & s' & p & -> & R & Hp).
    exists o, s'. split; [reflexivity|]. cbn [file_path world disk] in R, Hp.
    rewrite Hp. destruct p; exact R.
Qed.

Lemma app_run ep env s :
  Run (handler_text ep) env (log_open (now env) s) (disk (world s))
    (fst (app ep env s)) (file_path (snd (app ep env s))) (disk (world (snd (app ep env s)))).
Proof.
  assert (H : app ep env s = handler_body (handler_text ep) env s)
    by (destruct ep; reflexivity).
  rewrite H. destruct (handler_body_run (handler_text ep) env s) as (o & s' & -> & R).
  exact R.
Qed.

Lemma caught_is_result e v : @caught Value e = Val (ProcessingResult v) -> False.
Proof. unfold caught. destruct (isinstance_Exception e); discriminate. Qed.

Lemma caught_is_error e m pf :
  @caught Value e = Val (ErrorRecord m pf) ->
  isinstance_Exception e = true /\ m = exn_str e /\ pf = "Temporary file not created".
Proof. unfold caught. destruct (isinstance_Exception e); [|discriminate]. intros [= <- <-]. auto. Qed.

Lemma caught_Exception e :
  isinstance_Exception e = true ->
  @caught Value e = Val (ErrorRecord (exn_str e) "Temporary file not created").
Proof. unfold caught. intros ->. reflexivity. Qed.

Lemma events_of_run_app s s' evs :
  trace (disk (world s')) = trace (disk (world s)) ++ evs -> events_of_run s s' = evs.
Proof. unfold events_of_run. intros ->. apply drop_app_length. Qed.

Lemma trace_processed file data d :
  trace (processed file data d) =
  trace d ++ [EvCreate file; EvWrite file data; EvClose file; EvProcess file (Some data)].
Proof. unfold processed, staged, record_event. cbn. rewrite <- app_assoc. reflexivity. Qed.

(** A run that succeeds went through every statement of [try]. *)
Lemma Run_success_inv t env oe d v p d' :
  Run t env oe d (Val (ProcessingResult v)) p d' ->
  exists data file new_file,
    request_body env = Val data /\
    staging_outcome env (suffix t) (fs d) = Val file /\
    thickness_file env file (<[file := data]> (fs d)) = Val new_file /\
    call (method t) new_file (<[file := data]> (fs d)) = Val v /\
    unlink_error env = None /\
    p = Some file /\ d' = remove_file file (processed file data d) /\ oe = None.
Proof.
  inversion 1; subst;
    try match goal with H : caught _ = Val (ProcessingResult _) |- _ =>
      destruct (caught_is_result _ _ H) end.
  exists data, file, new_file. unfold staging_outcome.
  repeat match goal with H : _ = _ |- _ => rewrite H end. auto 10.
Qed.


(** The outcome as a function of the surroundings: the error of opening
    the log file leaves the handler; with none, the first exception of
    ingestion, staging or processing goes through [except]; with none, a
    failing [os.unlink] does; with none again, the result is returned. *)
Lemma Run_outcome_open t env oe d o p d' :
  Run t env oe d o p d' ->
  match oe with
  | Some msg => o = Exc (OSError msg)
  | None =>
      match raised t env (fs d) with
      | Some (_, e) => o = caught e
      | None =>
          match unlink_error env with
          | Some msg => o = caught (OSError msg)
          | None => exists v, o = Val (ProcessingResult v)
          end
      end
  end.
Proof.
  destruct 1; unfold raised, staging_outcome, processing_outcome;
    repeat match goal with H : _ = _ |- _ => rewrite H end; eauto.
Qed.

Lemma Run_outcome t env d o p d' :
  Run t env None d o p d' ->
  match raised t env (fs d) with
  | Some (_, e) => o = caught e
  | None =>
      match unlink_error env with
      | Some msg => o = caught (OSError msg)
      | None => exists v, o = Val (ProcessingResult v)
      end
  end.
Proof. intros R. exact (Run_outcome_open _ _ _ _ _ _ _ R). Qed.

(** A run that returns a response had its logger. *)
Lemma Run_returns t env oe d r p d' : Run t env oe d (Val r) p d' -> oe = None.
Proof. inversion 1; assumption. Qed.

(** On every run but the successful one, nothing is unlinked and every
    file the run created is still on disk. *)
Lemma Run_failure_keeps_files t env oe d o p d' :
  Run t env oe d o p d' ->
  (forall v, o <> Val (ProcessingResult v)) ->
  exists evs : list Event, trace d' = trace d ++ evs /\
    (forall path, In (EvCreate path) evs -> is_Some (fs d' !! path)) /\
    (forall path, ~ In (EvUnlink path) evs).
Proof.
  destruct 1; intros Hne.
  1-3: exists []; rewrite app_nil_r; repeat split; intros ? [].
  - exists [EvCreate file]. repeat split.
    + intros path [[= <-]|[]]. cbn. rewrite lookup_insert_eq. eauto.
    + intros path [[=]|[]].
  - exists [EvCreate file; EvWrite file data]. repeat split.
    + cbn. rewrite <- app_assoc. reflexivity.
    + intros path [[= <-]|[[=]|[]]]. cbn. rewrite lookup_insert_eq. eauto.
    + intros path [[=]|[[=]|[]]].
  - exists [EvCreate file; EvWrite file data; EvClose file; EvProcess file (Some data)].
    split; [apply trace_processed|]. split.
    + intros path [[= <-]|[[=]|[[=]|[[=]|[]]]]]. cbn. rewrite lookup_insert_eq. eauto.
    + intros path [[=]|[[=]|[[=]|[[=]|[]]]]].
  - exists [EvCreate file; EvWrite file data; EvClose file; EvProcess file (Some data)].
    split; [apply trace_processed|]. split.
    + intros path [[= <-]|[[=]|[[=]|[[=]|[]]]]]. cbn. rewrite lookup_insert_eq. eauto.
    + intros path [[=]|[[=]|[[=]|[[=]|[]]]]].
  - exists [EvCreate file; EvWrite file data; EvClose file; EvProcess file (Some data)].
    split; [apply trace_processed|]. split.
    + intros path [[= <-]|[[=]|[[=]|[[=]|[]]]]]. cbn. rewrite lookup_insert_eq. eauto.
    + intros path [[=]|[[=]|[[=]|[[=]|[]]]]].
  - destruct (Hne v eq_refl).
Qed.

(** Once staging has gone through, the processor is constructed on a
    closed file that holds the upload. *)
Lemma Run_staged t env oe d o p d' data file :
  Run t env oe d o p d' ->
  oe = None ->
  request_body env = Val data ->
  staging_outcome env (suffix t) (fs d) = Val file ->
  open_files d' !! file = None /\
  exists rest, trace d' = trace d ++
    [EvCreate file; EvWrite file data; EvClose file; EvProcess file (Some data)] ++ rest.
Proof.
  destruct 1; unfold staging_outcome;
    repeat match goal with H : _ = _ |- _ => rewrite ?H; clear H end;
    intros Ho Hb Hs; try discriminate; injection Hb as ->; injection Hs as ->;
    (split; [cbn; apply lookup_delete_eq|]).
  1-3: exists []; rewrite app_nil_r; apply trace_processed.
  exists [EvUnlink file]. unfold remove_file. cbn [trace record_event set_fs].
  rewrite trace_processed, <- app_assoc. reflexivity.
Qed.

End Facts.

Section Behaviour.

Context {Value : Type}.
Implicit Types (env : Env Value) (s : State) (ep : Endpoint).

Lemma method_is_processor_call ep : method (handler_text ep) = processor_call ep.
Proof. destruct ep as [[]|[]]; reflexivity. Qed.

(** C4: when a handler returns a Processing Result, the staged file was
    unlinked before the return: the run's events are create, write,
    close, process, unlink of one path, in that order, and no file is
    left under that path. *)
Theorem success_releases_staged_artifact ep env s v :
  fst (app ep env s) = Val (ProcessingResult v) ->
  exists file data,
    events_of_run s (snd (app ep env s)) =
      [EvCreate file; EvWrite file data; EvClose file;
       EvProcess file (Some data); EvUnlink file] /\
    fs (disk (world (snd (app ep env s)))) !! file = None.
Proof.
  intros H. pose proof (app_run ep env s) as R. rewrite H in R.
  apply Run_success_inv in R as (data & file & new_file & _ & _ & _ & _ & _ & _ & Hd & _).
  exists file, data. split.
  - apply events_of_run_app. rewrite Hd. unfold remove_file. cbn [trace record_event set_fs].
    rewrite trace_processed, <- app_assoc. reflexivity.
  - rewrite Hd. cbn. apply lookup_delete_eq.
Qed.

(** C6: when a handler returns an Error Record, the run unlinked nothing,
    and every file it created is still on disk. *)
Theorem failure_keeps_staged_artifact ep env s m pf :
  fst (app ep env s) = Val (ErrorRecord m pf) ->
  (forall path, In (EvCreate path) (events_of_run s (snd (app ep env s))) ->
                is_Some (fs (disk (world (snd (app ep env s)))) !! path)) /\
  (forall path, ~ In (EvUnlink path) (events_of_run s (snd (app ep env s)))).
Proof.
  intros H. pose proof (app_run ep env s) as R. rewrite H in R.
  apply Run_failure_keeps_files in R as (evs & Ht & Hc & Hu); [|discriminate].
  rewrite (events_of_run_app _ _ _ Ht). auto.
Qed.

(** C7: for every upload [data] of a request whose logger is created, once
    the temporary file is created, written and closed without error, the
    processor is constructed on its path while the file on disk holds
    exactly [data]; the write of the whole of [data] and the close come
    before, and when the handler ends no handle on the file is open. *)
Theorem staged_artifact_is_copy ep env s data file :
  logger_created (now env) s ->
  request_body env = Val data ->
  staging_outcome env (suffix (handler_text ep)) (fs (disk (world s))) = Val file ->
  open_files (disk (world (snd (app ep env s)))) !! file = None /\
  exists rest,
    events_of_run s (snd (app ep env s)) =
      [EvCreate file; EvWrite file data; EvClose file; EvProcess file (Some data)] ++ rest.
Proof.
  intros Hl%logger_created_open Hb Hs. pose proof (app_run ep env s) as R.
  destruct (Run_staged _ _ _ _ _ _ _ _ _ R Hl Hb Hs) as [Hopen [rest Ht]].
  split; [exact Hopen|]. exists rest. apply events_of_run_app. exact Ht.
Qed.

(** C9: a handler returns the Processing Result [v] exactly when its
    logger was created, the upload was staged, [thickness_file] was
    constructed on the staged path, the method the endpoint is listed with
    returned [v], and the unlink went through; [v] is handed back as it
    is. *)
Theorem success_returns_processor_result ep env s v :
  fst (app ep env s) = Val (ProcessingResult v) <->
  logger_created (now env) s /\
  exists data file new_file,
    request_body env = Val data /\
    staging_outcome env (suffix (handler_text ep)) (fs (disk (world s))) = Val file /\
    thickness_file env file (<[file := data]> (fs (disk (world s)))) = Val new_file /\
    call (processor_call ep) new_file (<[file := data]> (fs (disk (world s)))) = Val v /\
    unlink_error env = None.
Proof.
  pose proof (app_run ep env s) as R. rewrite <- method_is_processor_call.
  rewrite logger_created_open. split.
  - intros H. rewrite H in R.
    apply Run_success_inv in R as (data & file & new_file & ? & ? & ? & ? & ? & _ & _ & ?).
    split; [assumption|]. exists data, file, new_file. auto.
  - intros (Hl & data & file & new_file & Hb & Hs & Hc & Hm & Hu).
    rewrite Hl in R. apply Run_outcome in R. unfold raised, processing_outcome in R.
    rewrite Hb, Hs, Hc, Hm, Hu in R. destruct R as [v' Hv'].
    rewrite Hv'. f_equal. f_equal.
    pose proof (app_run ep env s) as R. rewrite Hv' in R.
    apply Run_success_inv in R as (data' & file' & new_file' & Hb' & Hs' & Hc' & Hm' & _).
    congruence.
Qed.

(** C10: on a request whose logger is created, when the method of the
    processor has returned and [os.unlink] then raises, the handler returns an Error Record carrying the message
    of that error and the placeholder, although [file_path] holds the
    staged path. *)
Theorem unlink_failure_discards_result ep env s data file v msg :
  logger_created (now env) s ->
  request_body env = Val data ->
  staging_outcome env (suffix (handler_text ep)) (fs (disk (world s))) = Val file ->
  processing_outcome env (processor_call ep) file (<[file := data]> (fs (disk (world s))))
    = Val v ->
  unlink_error env = Some msg ->
  fst (app ep env s) = Val (ErrorRecord msg "Temporary file not created").
Proof.
  intros Hl%logger_created_open Hb Hs Hp Hu. pose proof (app_run ep env s) as R.
  rewrite Hl in R. apply Run_outcome in R. unfold raised in R.
  rewrite method_is_processor_call, Hb, Hs, Hp, Hu in R. exact R.
Qed.

(** C3, amended: once [create_logger] has returned, an exception raised
    by ingestion, staging or processing that is an instance of [Exception]
    does not leave the handler, which returns an Error Record whose
    [error] is [str(e)]. *)
Theorem Exception_is_absorbed ep env s st e :
  logger_created (now env) s ->
  raised (handler_text ep) env (fs (disk (world s))) = Some (st, e) ->
  isinstance_Exception e = true ->
  exists pf, fst (app ep env s) = Val (ErrorRecord (exn_str e) pf).
Proof.
  intros Hl%logger_created_open Hr He. pose proof (app_run ep env s) as R.
  rewrite Hl in R. apply Run_outcome in R. rewrite Hr in R.
  rewrite R, (caught_Exception _ He). eauto.
Qed.

(** C8, amended: when the logger of the request is created and
    ingestion, staging and processing raise nothing outside [Exception],
    the handler returns a response; it is a Processing Result exactly when
    no stage raised and the unlink went through, and an Error Record
    exactly when a stage raised or, with no stage raising, the unlink
    failed. *)
Theorem response_is_exactly_one ep env s :
  logger_created (now env) s ->
  only_Exception_raised (handler_text ep) env (fs (disk (world s))) = true ->
  exists r,
    fst (app ep env s) = Val r /\
    (is_processing_result r = true <->
     raised (handler_text ep) env (fs (disk (world s))) = None /\ unlink_error env = None) /\
    (is_error_record r = true <->
     raised (handler_text ep) env (fs (disk (world s))) <> None \/ unlink_error env <> None).
Proof.
  unfold only_Exception_raised. intros Hl%logger_created_open Hx.
  pose proof (app_run ep env s) as R. rewrite Hl in R. apply Run_outcome in R.
  destruct (raised _ _ _) as [[st e]|].
  - rewrite R, (caught_Exception _ Hx). eexists. split; [reflexivity|]. cbn. split.
    + split; [discriminate|]. intros [[=] _].
    + split; [|reflexivity]. intros _. left. discriminate.
  - destruct (unlink_error env) as [msg|].
    + rewrite R. eexists. split; [reflexivity|]. cbn. split.
      * split; [discriminate|]. intros [_ [=]].
      * split; [|reflexivity]. intros _. right. discriminate.
    + destruct R as [v ->]. eexists. split; [reflexivity|]. cbn. split; [tauto|].
      split; [discriminate|]. intros [H|H]; destruct H; reflexivity.
Qed.

(** Whatever failed, the Error Record names the placeholder. *)
Lemma error_record_names_placeholder ep env s m pf :
  fst (app ep env s) = Val (ErrorRecord m pf) -> pf = "Temporary file not created".
Proof.
  intros H. pose proof (app_run ep env s) as R. rewrite H in R.
  rewrite (Run_returns _ _ _ _ _ _ _ R) in R. apply Run_outcome in R.
  destruct (raised _ _ _) as [[st e]|]; [|destruct (unlink_error env)].
  - symmetry in R. apply caught_is_error in R. tauto.
  - symmetry in R. apply caught_is_error in R. tauto.
  - destruct R as [v [=]].
Qed.

End Behaviour.

(** ** The suffix of the staged file *)

Lemma has_suffix_app (p suf : string) : has_suffix suf (p +:+ suf) = true.
Proof.
  induction p as [|c p IH]; simpl.
  - destruct suf; simpl; [reflexivity|]. rewrite Ascii.eqb_refl, String.eqb_refl. reflexivity.
  - rewrite IH. match goal with |- (if ?b then _ else _) = _ => destruct b end; reflexivity.
Qed.

Lemma string_app_assoc (a b c : string) : (a +:+ b) +:+ c = a +:+ b +:+ c.
Proof.
  induction a as [|x a IH]; [reflexivity|].
  change (String x ((a +:+ b) +:+ c) = String x (a +:+ b +:+ c)). f_equal. exact IH.
Qed.

Lemma temp_path_has_suffix (dir name suf : string) :
  has_suffix suf (temp_path dir name suf) = true.
Proof.
  unfold temp_path.
  replace (dir +:+ "/" +:+ "tmp" +:+ name +:+ suf)
    with ((dir +:+ "/" +:+ "tmp" +:+ name) +:+ suf).
  - apply has_suffix_app.
  - rewrite !string_app_assoc. reflexivity.
Qed.

(** The staged file carries the suffix the handler passes to
    [NamedTemporaryFile]. *)
Lemma staged_file_has_suffix {Value : Type} (env : Env Value) suf files file :
  staging_outcome env suf files = Val file -> has_suffix suf file = true.
Proof.
  unfold staging_outcome.
  destruct (mkstemp_inner _ _ _ _ _) as [f|] eqn:Hmk; [|discriminate].
  destruct (write_error env); [discriminate|].
  destruct (close_error env); [discriminate|]. intros [= <-].
  apply mkstemp_inner_fresh in Hmk as (_ & name & _ & ->).
  apply temp_path_has_suffix.
Qed.

(** Four of the six handlers pass the suffix of their format. *)
Lemma suffix_follows_hint ep :
  ep <> Data xlsx_databasevaluesbody ->
  ep <> Validation txt_validation_body ->
  suffix (handler_text ep) = suffix_of_format (format_hint ep).
Proof. destruct ep as [[]|[]]; intros H1 H2; try reflexivity; congruence. Qed.

(** C2: the handler of [/thickness/xlsx/data/databasevaluesbody], a
    spreadsheet endpoint, stages the upload under a name ending in [.txt],
    and the handler of [/thickness/txt/validation/body], a text endpoint,
    under a name ending in [.xlsx]. *)
Theorem staged_suffix_against_hint :
  (format_hint (Data xlsx_databasevaluesbody) = Spreadsheet /\
   events_of_run initial_state (snd (app (Data xlsx_databasevaluesbody) env_upload initial_state)) =
     [EvCreate "/tmp/tmpabcd1234.txt"; EvWrite "/tmp/tmpabcd1234.txt" upload;
      EvClose "/tmp/tmpabcd1234.txt"; EvProcess "/tmp/tmpabcd1234.txt" (Some upload);
      EvUnlink "/tmp/tmpabcd1234.txt"] /\
   has_suffix ".xlsx" "/tmp/tmpabcd1234.txt" = false) /\
  (format_hint (Validation txt_validation_body) = Text /\
   events_of_run initial_state (snd (app (Validation txt_validation_body) env_upload initial_state)) =
     [EvCreate "/tmp/tmpabcd1234.xlsx"; EvWrite "/tmp/tmpabcd1234.xlsx" upload;
      EvClose "/tmp/tmpabcd1234.xlsx"; EvProcess "/tmp/tmpabcd1234.xlsx" (Some upload);
      EvUnlink "/tmp/tmpabcd1234.xlsx"] /\
   has_suffix ".txt" "/tmp/tmpabcd1234.xlsx" = false).
Proof. repeat split; vm_compute; reflexivity. Qed.

(** ** The Error Record and the staged path *)

(** C1: an empty upload to [/thickness/xlsx/data/tablebody] is staged,
    the processor refuses it, and the Error Record names the placeholder
    although [file_path] holds the staged path and the file is on disk. *)
Theorem staged_path_missing_from_error_record :
  fst (app (Data xlsx_tablebody) env_empty_upload initial_state) =
    Val (ErrorRecord "No columns to parse from file" "Temporary file not created") /\
  file_path (snd (app (Data xlsx_tablebody) env_empty_upload initial_state)) =
    Some "/tmp/tmpabcd1234.xlsx" /\
  fs (disk (world (snd (app (Data xlsx_tablebody) env_empty_upload initial_state))))
    !! "/tmp/tmpabcd1234.xlsx" = Some [].
Proof. repeat split; vm_compute; reflexivity. Qed.

(** ** Loggers created within one second *)

Lemma digit_inj (a b : N) : (a < 10)%N -> (b < 10)%N -> digit a = digit b -> a = b.
Proof.
  unfold digit. intros Ha Hb H.
  apply (f_equal N_of_ascii) in H.
  rewrite !N_ascii_embedding in H.
  - rewrite !N.mod_small in H by assumption. lia.
  - rewrite N.mod_small by assumption. lia.
  - rewrite N.mod_small by assumption. lia.
Qed.

Lemma digit_mod (a : N) : digit a = digit (a mod 10).
Proof. unfold digit. rewrite N.Div0.mod_mod. reflexivity. Qed.

Lemma digits_eq (a b : N) :
  (a / 10 = b / 10)%N -> (a mod 10 = b mod 10)%N -> a = b.
Proof. intros H1 H2. rewrite (N.div_mod a 10), (N.div_mod b 10) by lia. congruence. Qed.

Lemma pad2_inj (a b : N) : (a < 100)%N -> (b < 100)%N -> pad2 a = pad2 b -> a = b.
Proof.
  unfold pad2. intros Ha Hb [= H1 H0].
  rewrite (digit_mod a), (digit_mod b) in H0.
  apply digit_inj in H1; [|apply N.Div0.div_lt_upper_bound; lia..].
  apply digit_inj in H0; [|apply N.mod_lt; lia..].
  apply digits_eq; assumption.
Qed.

Lemma pad4_inj (a b : N) : (a < 10000)%N -> (b < 10000)%N -> pad4 a = pad4 b -> a = b.
Proof.
  unfold pad4, pad2. intros Ha Hb [= H3 H2 H1 H0].
  rewrite (digit_mod (a / 100)), (digit_mod (b / 100)) in H2.
  rewrite (digit_mod (a / 10)), (digit_mod (b / 10)) in H1.
  rewrite (digit_mod a), (digit_mod b) in H0.
  apply digit_inj in H3; [|apply N.Div0.div_lt_upper_bound; lia..].
  apply digit_inj in H2; [|apply N.mod_lt; lia..].
  apply digit_inj in H1; [|apply N.mod_lt; lia..].
  apply digit_inj in H0; [|apply N.mod_lt; lia..].
  apply digits_eq; [|exact H0].
  apply digits_eq; [|exact H1]. rewrite !N.Div0.div_div. change (10 * 10)%N with 100%N.
  apply digits_eq; [|exact H2]. rewrite !N.Div0.div_div. exact H3.
Qed.

(** The rendered timestamp tells two readings of the clock apart exactly
    when they do not fall within the same second. *)
Lemma strftime_same_second (t1 t2 : datetime) :
  valid_datetime t1 -> valid_datetime t2 ->
  (strftime t1 = strftime t2 <-> same_second t1 t2).
Proof.
  intros (Hy1 & Hm1 & Hd1 & Hh1 & Hi1 & Hs1) (Hy2 & Hm2 & Hd2 & Hh2 & Hi2 & Hs2).
  unfold same_second. split.
  - unfold strftime. intros H.
    assert (pad4 (year t1) = pad4 (year t2) /\ pad2 (month t1) = pad2 (month t2) /\
            pad2 (day t1) = pad2 (day t2) /\ pad2 (hour t1) = pad2 (hour t2) /\
            pad2 (minute t1) = pad2 (minute t2) /\ pad2 (second t1) = pad2 (second t2))
      as (E1 & E2 & E3 & E4 & E5 & E6).
    { unfold pad4, pad2 in *. cbn [String.append] in H. injection H as ?.
      repeat split; congruence. }
    auto 10 using pad4_inj, pad2_inj.
  - intros (E1 & E2 & E3 & E4 & E5 & E6). unfold strftime. congruence.
Qed.

Lemma Val_inj {A : Type} (a b : A) : Val a = Val b -> a = b.
Proof. congruence. Qed.

(** The logger [create_logger] hands back is named after the rendered
    timestamp. *)
Lemma create_logger_name now s logger :
  fst (create_logger now s) = Val logger -> logger = strftime now.
Proof.
  destruct (create_logger_run now s) as [L ->]. cbn [fst].
  destruct (log_open now s); [discriminate|]. intros H. symmetry. exact (Val_inj _ _ H).
Qed.

(** Two calls of [create_logger] that return hand back the same logger
    exactly when their clock readings fall within the same second. *)
Lemma create_logger_shared_iff now1 now2 s1 s2 :
  valid_datetime now1 -> valid_datetime now2 ->
  logger_created now1 s1 -> logger_created now2 s2 ->
  (fst (create_logger now1 s1) = fst (create_logger now2 s2) <-> same_second now1 now2).
Proof.
  unfold logger_created. intros V1 V2 -> ->. rewrite <- (strftime_same_second _ _ V1 V2).
  split; [apply Val_inj | intros ->; reflexivity].
Qed.

(** C5: two calls of [create_logger] whose clock readings differ only in
    the microseconds hand back the same logger, now carrying two handlers
    on one log file; a record logged through it is written there twice. *)
Theorem create_logger_same_second :
  clock <> clock_later /\
  fst (create_logger clock initial_state) = Val "2024-05-17_10-30-00" /\
  fst (create_logger clock_later (snd (create_logger clock initial_state))) =
    Val "2024-05-17_10-30-00" /\
  loggerDict (logging (world (snd (create_logger clock_later
                                     (snd (create_logger clock initial_state))))))
    !! "2024-05-17_10-30-00" =
    Some (mk_logger INFO ["./Logs/2024-05-17_10-30-00.log"; "./Logs/2024-05-17_10-30-00.log"]) /\
  log_files (logging (world (snd (logger_info "2024-05-17_10-30-00" "Received XLSX data table request."
                                    (snd (create_logger clock_later
                                            (snd (create_logger clock initial_state))))))))
    !! "./Logs/2024-05-17_10-30-00.log" =
    Some [mk_record INFO "Received XLSX data table request.";
          mk_record INFO "Received XLSX data table request."].
Proof. split; [discriminate|]. repeat split; vm_compute; reflexivity. Qed.

(** ** Exceptions outside Exception *)

(** C3, as stated, fails: a request cancelled while its body is read
    raises [asyncio.CancelledError] during ingestion, and the handler of
    [/thickness/xlsx/data/tablebody] lets it through. *)
Lemma cancelled_request_propagates :
  raised (handler_text (Data xlsx_tablebody)) env_cancelled (fs (disk (world initial_state)))
    = Some (Ingestion, CancelledError) /\
  fst (app (Data xlsx_tablebody) env_cancelled initial_state) = Exc CancelledError.
Proof. split; vm_compute; reflexivity. Qed.

(** C8, as stated, fails twice: for a request to
    [/thickness/txt/validation/body] cancelled while its body is read, and
    for an upload that arrives when the process has no descriptor left
    for the log file, the handler returns neither a Processing Result nor
    an Error Record: the exception leaves it. *)
Lemma requests_without_response :
  (fst (app (Validation txt_validation_body) env_cancelled initial_state) = Exc CancelledError /\
   ~ (exists r, fst (app (Validation txt_validation_body) env_cancelled initial_state) = Val r)) /\
  (fst (app (Validation txt_validation_body) env_upload state_without_descriptors) =
     Exc (OSError "[Errno 24] Too many open files") /\
   ~ (exists r, fst (app (Validation txt_validation_body) env_upload state_without_descriptors)
                = Val r)).
Proof.
  split; (split; [vm_compute; reflexivity|]); intros [r H]; vm_compute in H; discriminate.
Qed.

(** ** The theorems at sample requests *)

Lemma success_releases_staged_artifact_witness :
  fst (app (Data xlsx_tablebody) env_upload initial_state) = Val (ProcessingResult "table") /\
  exists file data,
    events_of_run initial_state (snd (app (Data xlsx_tablebody) env_upload initial_state)) =
      [EvCreate file; EvWrite file data; EvClose file;
       EvProcess file (Some data); EvUnlink file] /\
    fs (disk (world (snd (app (Data xlsx_tablebody) env_upload initial_state)))) !! file = None.
Proof.
  split; [reflexivity|].
  apply (success_releases_staged_artifact (Data xlsx_tablebody) env_upload initial_state "table").
  reflexivity.
Defined.

Lemma failure_keeps_staged_artifact_witness :
  fst (app (Data txt_tablebody) env_empty_upload initial_state) =
    Val (ErrorRecord "No columns to parse from file" "Temporary file not created") /\
  (forall path,
     In (EvCreate path) (events_of_run initial_state (snd (app (Data txt_tablebody) env_empty_upload initial_state))) ->
     is_Some (fs (disk (world (snd (app (Data txt_tablebody) env_empty_upload initial_state)))) !! path)) /\
  (forall path,
     ~ In (EvUnlink path) (events_of_run initial_state (snd (app (Data txt_tablebody) env_empty_upload initial_state)))).
Proof.
  split; [reflexivity|].
  apply (failure_keeps_staged_artifact (Data txt_tablebody) env_empty_upload initial_state
           "No columns to parse from file" "Temporary file not created").
  reflexivity.
Defined.

Lemma staged_artifact_is_copy_witness :
  logger_created (now env_upload) initial_state /\
  request_body env_upload = Val upload /\
  staging_outcome env_upload (suffix (handler_text (Data txt_databasevaluesbody)))
    (fs (disk (world initial_state))) = Val "/tmp/tmpabcd1234.txt" /\
  open_files (disk (world (snd (app (Data txt_databasevaluesbody) env_upload initial_state))))
    !! "/tmp/tmpabcd1234.txt" = None /\
  exists rest,
    events_of_run initial_state (snd (app (Data txt_databasevaluesbody) env_upload initial_state)) =
      [EvCreate "/tmp/tmpabcd1234.txt"; EvWrite "/tmp/tmpabcd1234.txt" upload;
       EvClose "/tmp/tmpabcd1234.txt"; EvProcess "/tmp/tmpabcd1234.txt" (Some upload)] ++ rest.
Proof.
  split; [reflexivity|]. split; [reflexivity|]. split; [reflexivity|].
  apply (staged_artifact_is_copy (Data txt_databasevaluesbody) env_upload initial_state
           upload "/tmp/tmpabcd1234.txt"); reflexivity.
Defined.

Lemma success_returns_processor_result_witness :
  fst (app (Validation xlsx_validation_body) env_upload initial_state) =
    Val (ProcessingResult "validation_status") /\
  logger_created (now env_upload) initial_state /\
  exists data file new_file,
    request_body env_upload = Val data /\
    staging_outcome env_upload (suffix (handler_text (Validation xlsx_validation_body)))
      (fs (disk (world initial_state))) = Val file /\
    thickness_file env_upload file (<[file := data]> (fs (disk (world initial_state)))) = Val new_file /\
    call (processor_call (Validation xlsx_validation_body)) new_file
      (<[file := data]> (fs (disk (world initial_state)))) = Val "validation_status" /\
    unlink_error env_upload = None.
Proof.
  split; [reflexivity|].
  apply (proj1 (success_returns_processor_result (Validation xlsx_validation_body)
                  env_upload initial_state "validation_status")).
  reflexivity.
Defined.

Lemma unlink_failure_discards_result_witness :
  logger_created (now env_unlink_denied) initial_state /\
  request_body env_unlink_denied = Val upload /\
  staging_outcome env_unlink_denied (suffix (handler_text (Data xlsx_tablebody)))
    (fs (disk (world initial_state))) = Val "/tmp/tmpabcd1234.xlsx" /\
  processing_outcome env_unlink_denied (processor_call (Data xlsx_tablebody))
    "/tmp/tmpabcd1234.xlsx" (<["/tmp/tmpabcd1234.xlsx" := upload]> (fs (disk (world initial_state))))
    = Val "table" /\
  unlink_error env_unlink_denied = Some "[Errno 13] Permission denied" /\
  fst (app (Data xlsx_tablebody) env_unlink_denied initial_state) =
    Val (ErrorRecord "[Errno 13] Permission denied" "Temporary file not created").
Proof.
  split; [reflexivity|].
  split; [reflexivity|]. split; [reflexivity|]. split; [reflexivity|]. split; [reflexivity|].
  apply (unlink_failure_discards_result (Data xlsx_tablebody) env_unlink_denied initial_state
           upload "/tmp/tmpabcd1234.xlsx" "table" "[Errno 13] Permission denied");
    reflexivity.
Defined.

Lemma Exception_is_absorbed_witness :
  logger_created (now env_empty_upload) initial_state /\
  raised (handler_text (Validation xlsx_validation_body)) env_empty_upload
    (fs (disk (world initial_state)))
    = Some (Processing, mk_exn ExceptionSubclass "No columns to parse from file") /\
  isinstance_Exception (mk_exn ExceptionSubclass "No columns to parse from file")
    = true /\
  exists pf,
    fst (app (Validation xlsx_validation_body) env_empty_upload initial_state) =
      Val (ErrorRecord
             (exn_str (mk_exn ExceptionSubclass "No columns to parse from file")) pf).
Proof.
  split; [reflexivity|]. split; [reflexivity|]. split; [reflexivity|].
  apply (Exception_is_absorbed (Validation xlsx_validation_body) env_empty_upload initial_state
           Processing (mk_exn ExceptionSubclass "No columns to parse from file"));
    reflexivity.
Defined.

Lemma response_is_exactly_one_witness :
  logger_created (now env_upload) initial_state /\
  only_Exception_raised (handler_text (Data txt_tablebody)) env_upload
    (fs (disk (world initial_state))) = true /\
  exists r,
    fst (app (Data txt_tablebody) env_upload initial_state) = Val r /\
    (is_processing_result r = true <->
     raised (handler_text (Data txt_tablebody)) env_upload (fs (disk (world initial_state))) = None /\
     unlink_error env_upload = None) /\
    (is_error_record r = true <->
     raised (handler_text (Data txt_tablebody)) env_upload (fs (disk (world initial_state))) <> None \/
     unlink_error env_upload <> None).
Proof.
  split; [reflexivity|]. split; [reflexivity|].
  apply (response_is_exactly_one (Data txt_tablebody) env_upload initial_state);
    reflexivity.
Defined.

(** * Further behaviour of the handlers *)

Section Disk.

Context {Value : Type}.
Implicit Types (env : Env Value) (s : State) (ep : Endpoint) (t : HandlerText) (d : Disk).
Implicit Types (files : gmap string bytes).





Ltac same_run :=
  repeat match goal with
  | H1 : ?x = Val ?a, H2 : ?x = Val ?b |- _ =>
      first [ constr_eq a b; clear H2
            | assert (b = a) by congruence; subst b; clear H2 ]
  | H1 : ?x = Exc ?a, H2 : ?x = Exc ?b |- _ =>
      first [ constr_eq a b; clear H2
            | assert (b = a) by congruence; subst b; clear H2 ]
  | H1 : ?x = Some ?a, H2 : ?x = Some ?b |- _ =>
      first [ constr_eq a b; clear H2
            | assert (b = a) by congruence; subst b; clear H2 ]
  | H1 : ?x = None, H2 : ?x = None |- _ => clear H2
  end.


(** The events of a run, one case per constructor of [Run]. *)
Lemma Run_events t env oe d o p d' :
  Run t env oe d o p d' ->
  trace d' = trace d \/
  exists file data,
    request_body env = Val data /\
    mkstemp_inner (gettempdir env) (suffix t) (candidate_names env) (open_error env) (fs d)
      = Val file /\
    (trace d' = trace d ++ [EvCreate file] \/
     trace d' = trace d ++ [EvCreate file; EvWrite file data] \/
     staging_outcome env (suffix t) (fs d) = Val file /\
     (trace d' = trace d ++ [EvCreate file; EvWrite file data; EvClose file;
                             EvProcess file (Some data)] \/
      trace d' = trace d ++ [EvCreate file; EvWrite file data; EvClose file;
                             EvProcess file (Some data); EvUnlink file])).
Proof.
  destruct 1; auto; right; exists file, data; (split; [assumption|]); (split; [assumption|]).
  - left. reflexivity.
  - right. left. cbn. rewrite <- app_assoc. reflexivity.
  - right. right. unfold staging_outcome.
    repeat match goal with H : _ = _ |- _ => rewrite H end.
    split; [reflexivity|]. left. apply trace_processed.
  - right. right. unfold staging_outcome.
    repeat match goal with H : _ = _ |- _ => rewrite H end.
    split; [reflexivity|]. left. apply trace_processed.
  - right. right. unfold staging_outcome.
    repeat match goal with H : _ = _ |- _ => rewrite H end.
    split; [reflexivity|]. left. apply trace_processed.
  - right. right. unfold staging_outcome.
    repeat match goal with H : _ = _ |- _ => rewrite H end.
    split; [reflexivity|]. right. cbn [remove_file trace record_event set_fs].
    rewrite trace_processed, <- app_assoc. reflexivity.
Qed.

(** [file_path] holds a path exactly when the logger was created and
    staging went through, and then it is the staged path. *)
Lemma Run_file_path t env oe d o p d' file :
  Run t env oe d o p d' ->
  (p = Some file <->
   oe = None /\
   exists data, request_body env = Val data /\
                staging_outcome env (suffix t) (fs d) = Val file).
Proof.
  destruct 1; unfold staging_outcome;
    repeat match goal with H : _ = _ |- _ => rewrite H; clear H end;
    (split; [intros [=]; subst; eauto
            | intros (Ho & ? & Hb & Hs); try discriminate;
              revert Hb Hs; intros [=] [=]; subst; auto]).
Qed.

(** What a run leaves when staging itself fails after the file was
    created. *)
Lemma Run_staging_fails t env oe d o p d' data file e :
  Run t env oe d o p d' ->
  oe = None ->
  request_body env = Val data ->
  mkstemp_inner (gettempdir env) (suffix t) (candidate_names env) (open_error env) (fs d)
    = Val file ->
  staging_outcome env (suffix t) (fs d) = Exc e ->
  o = caught e /\ p = None /\ fs d' = <[file := []]> (fs d).
Proof.
  destruct 1; unfold staging_outcome;
    repeat match goal with H : _ = _ |- _ => rewrite H; clear H end;
    intros Ho Hb Hm Hs; try discriminate;
    injection Hs as <-; injection Hm as <-; auto.
Qed.


(** Nothing is created when the body cannot be read or no name is free. *)
Lemma Run_nothing_staged t env oe d o p d' :
  Run t env oe d o p d' ->
  (exists e, request_body env = Exc e) \/
  (exists e, mkstemp_inner (gettempdir env) (suffix t) (candidate_names env)
               (open_error env) (fs d) = Exc e) ->
  d' = d /\ p = None.
Proof.
  destruct 1; auto; intros [[e' He]|[e' He]]; congruence.
Qed.

(** Two runs in the same surroundings, from disks holding the same files,
    by handlers passing the same suffix and calling the same method, whose
    log files open alike, end alike. *)
Lemma Run_functional t1 t2 env oe d1 d2 o1 o2 p1 p2 d1' d2' :
  Run t1 env oe d1 o1 p1 d1' -> Run t2 env oe d2 o2 p2 d2' ->
  suffix t1 = suffix t2 -> method t1 = method t2 -> fs d1 = fs d2 ->
  o1 = o2 /\ p1 = p2 /\ (d1 = d2 -> d1' = d2').
Proof.
  intros R1 R2 Hs Hm Hf.
  destruct R1; destruct R2; rewrite <- ?Hs, <- ?Hm, <- ?Hf in *;
    try congruence; same_run; repeat split; intros; subst; reflexivity.
Qed.




(** X3: on a request whose logger is created, when the temporary file
    has been created and the write or the close then fails, the handler
    answers with the message of that failure, the file stays on disk
    under the new name, and [file_path] is still unset. *)
Theorem failed_staging_leaves_file ep env s data file e :
  logger_created (now env) s ->
  request_body env = Val data ->
  mkstemp_inner (gettempdir env) (suffix (handler_text ep)) (candidate_names env)
    (open_error env) (fs (disk (world s))) = Val file ->
  staging_outcome env (suffix (handler_text ep)) (fs (disk (world s))) = Exc e ->
  fst (app ep env s) = Val (ErrorRecord (exn_str e) "Temporary file not created") /\
  is_Some (fs (disk (world (snd (app ep env s)))) !! file) /\
  file_path (snd (app ep env s)) = None.
Proof.
  intros Hl%logger_created_open Hb Hm Hs.
  destruct (Run_staging_fails _ _ _ _ _ _ _ _ _ _ (app_run ep env s) Hl Hb Hm Hs)
    as (Ho & Hp & Hf).
  rewrite Ho, Hp, Hf, lookup_insert_eq. split; [|eauto]. apply caught_Exception.
  unfold staging_outcome in Hs. rewrite Hm in Hs.
  destruct (write_error env); [injection Hs as <-; reflexivity|].
  destruct (close_error env); [injection Hs as <-; reflexivity|discriminate].
Qed.


(** X5: when the body cannot be read, the handler touches neither the
    disk nor its trace: no temporary file is created. *)
Theorem unread_body_stages_nothing ep env s e :
  request_body env = Exc e ->
  disk (world (snd (app ep env s))) = disk (world s) /\
  file_path (snd (app ep env s)) = None.
Proof.
  intros Hb. apply Run_nothing_staged with (1 := app_run ep env s). left. eauto.
Qed.


(** X7: the processor is constructed only on the path of a file that was
    staged in full: whenever [thickness_file] is called, staging has gone
    through, the path is the staged one and the file holds the upload. *)
Theorem processor_only_after_staging ep env s path content :
  In (EvProcess path content) (events_of_run s (snd (app ep env s))) ->
  exists data,
    request_body env = Val data /\
    staging_outcome env (suffix (handler_text ep)) (fs (disk (world s))) = Val path /\
    content = Some data.
Proof.
  destruct (Run_events _ _ _ _ _ _ _ (app_run ep env s))
    as [Ht|(file & data & Hb & _ & [Ht|[Ht|(Hs & [Ht|Ht])]])].
  - rewrite <- (app_nil_r (trace (disk (world s)))) in Ht.
    rewrite (events_of_run_app _ _ _ Ht). intros [].
  - rewrite (events_of_run_app _ _ _ Ht). intros [[=]|[]].
  - rewrite (events_of_run_app _ _ _ Ht). intros [[=]|[[=]|[]]].
  - rewrite (events_of_run_app _ _ _ Ht).
    intros [[=]|[[=]|[[=]|[[= <- <-]|[]]]]]. eauto.
  - rewrite (events_of_run_app _ _ _ Ht).
    intros [[=]|[[=]|[[=]|[[= <- <-]|[[=]|[]]]]]]. eauto.
Qed.

(** A path that a run creates was free before. *)
Lemma Run_created_free t env oe d o p d' evs file :
  Run t env oe d o p d' ->
  trace d' = trace d ++ evs ->
  In (EvCreate file) evs ->
  fs d !! file = None.
Proof.
  intros R Ht Hin.
  destruct (Run_events _ _ _ _ _ _ _ R) as [Ht'|(file' & data & _ & Hm & Ht')].
  - rewrite Ht' in Ht. rewrite <- (app_nil_r (trace d)) in Ht at 1.
    apply app_inv_head in Ht. subst evs. destruct Hin.
  - apply mkstemp_inner_fresh in Hm as [Hm _].
    assert (file = file') as ->; [|exact Hm].
    destruct Ht' as [Ht'|[Ht'|(_ & [Ht'|Ht'])]]; rewrite Ht' in Ht;
      apply app_inv_head in Ht; subst evs; cbn in Hin; intuition congruence.
Qed.

Lemma app_trace ep env s :
  trace (disk (world (snd (app ep env s)))) =
    trace (disk (world s)) ++ events_of_run s (snd (app ep env s)).
Proof.
  destruct (Run_events _ _ _ _ _ _ _ (app_run ep env s))
    as [Ht|(file & data & _ & _ & [Ht|[Ht|(_ & [Ht|Ht])]])];
    [rewrite <- (app_nil_r (trace (disk (world s)))) in Ht| | | |];
    rewrite (events_of_run_app _ _ _ Ht); exact Ht.
Qed.

(** X8: the file a handler creates is new: no file was on disk under its
    path, which is the temporary directory, [tmp], one of the drawn names
    and the suffix of the handler. *)
Theorem staged_path_is_fresh ep env s file :
  In (EvCreate file) (events_of_run s (snd (app ep env s))) ->
  fs (disk (world s)) !! file = None /\
  exists name, In name (candidate_names env) /\
    file = temp_path (gettempdir env) name (suffix (handler_text ep)).
Proof.
  intros Hin. pose proof (app_run ep env s) as R. split.
  - exact (Run_created_free _ _ _ _ _ _ _ _ _ R (app_trace ep env s) Hin).
  - destruct (Run_events _ _ _ _ _ _ _ R) as [Ht|(file' & data & _ & Hm & Ht)].
    + rewrite <- (app_nil_r (trace (disk (world s)))) in Ht.
      rewrite (events_of_run_app _ _ _ Ht) in Hin. destruct Hin.
    + apply mkstemp_inner_fresh in Hm as [_ Hm].
      assert (file = file') as ->; [|exact Hm].
      destruct Ht as [Ht|[Ht|(_ & [Ht|Ht])]]; rewrite (events_of_run_app _ _ _ Ht) in Hin;
        cbn in Hin; intuition congruence.
Qed.

(** X9: a request that follows a failed one is staged under another path
    than the file the failed one left behind. *)
Theorem leaked_files_have_distinct_paths ep1 ep2 env1 env2 s m pf path1 path2 :
  fst (app ep1 env1 s) = Val (ErrorRecord m pf) ->
  In (EvCreate path1) (events_of_run s (snd (app ep1 env1 s))) ->
  In (EvCreate path2)
     (events_of_run (snd (app ep1 env1 s)) (snd (app ep2 env2 (snd (app ep1 env1 s))))) ->
  path1 <> path2.
Proof.
  intros Ho H1 H2. pose proof (app_run ep1 env1 s) as R. rewrite Ho in R.
  apply Run_failure_keeps_files in R as (evs & Ht & Hc & _); [|discriminate].
  rewrite (events_of_run_app _ _ _ Ht) in H1. apply Hc in H1 as [c Hc1].
  pose proof (Run_created_free _ _ _ _ _ _ _ _ _
                (app_run ep2 env2 (snd (app ep1 env1 s)))
                (app_trace ep2 env2 (snd (app ep1 env1 s))) H2) as Hfree.
  congruence.
Qed.


(** X11: the two validation handlers answer every request alike and
    leave the same disk, and so do the two handlers for database values:
    within each pair the suffix and the method are the same, and the
    format in the route changes the log texts only. *)
Theorem format_makes_no_difference env s :
  (fst (app (Validation xlsx_validation_body) env s) =
     fst (app (Validation txt_validation_body) env s) /\
   disk (world (snd (app (Validation xlsx_validation_body) env s))) =
     disk (world (snd (app (Validation txt_validation_body) env s)))) /\
  (fst (app (Data xlsx_databasevaluesbody) env s) =
     fst (app (Data txt_databasevaluesbody) env s) /\
   disk (world (snd (app (Data xlsx_databasevaluesbody) env s))) =
     disk (world (snd (app (Data txt_databasevaluesbody) env s)))).
Proof.
  split.
  - destruct (Run_functional _ _ _ _ _ _ _ _ _ _ _ _
                (app_run (Validation xlsx_validation_body) env s)
                (app_run (Validation txt_validation_body) env s))
      as (Ho & _ & Hd); auto.
  - destruct (Run_functional _ _ _ _ _ _ _ _ _ _ _ _
                (app_run (Data xlsx_databasevaluesbody) env s)
                (app_run (Data txt_databasevaluesbody) env s))
      as (Ho & _ & Hd); auto.
Qed.

(** X12: at the end of a run [file_path] holds a path exactly when the
    logger was created and the upload was staged in full, and then it is
    the staged path. *)
Theorem file_path_tracks_staging ep env s file :
  file_path (snd (app ep env s)) = Some file <->
  logger_created (now env) s /\
  exists data,
    request_body env = Val data /\
    staging_outcome env (suffix (handler_text ep)) (fs (disk (world s))) = Val file.
Proof. rewrite logger_created_open. apply Run_file_path with (1 := app_run ep env s). Qed.

End Disk.

(** * The log *)

Section Log.

Context {Value : Type}.
Implicit Types (env : Env Value) (s : State) (ep : Endpoint) (t : HandlerText).
Implicit Types (l : Logging) (r : LogRecord) (files : gmap string (list LogRecord)).

(** ** create_logger on the registry and the log files *)

Lemma set_loggerDict_open registry l :
  log_open_error (set_loggerDict registry l) = log_open_error l.
Proof. reflexivity. Qed.

Ltac run_create_logger :=
  unfold create_logger, getLogger, setLevel, FileHandler, addHandler;
  cbv beta iota delta [mbind M_bind mret M_ret modify_logging get_logging raise];
  cbn [file_path world disk logging fst snd];
  rewrite ?set_loggerDict_open, ?register_logger_open.

Lemma create_logger_logging_state now s s' :
  logging (world s) = logging (world s') ->
  logging (world (snd (create_logger now s))) = logging (world (snd (create_logger now s'))).
Proof.
  intros H. run_create_logger. rewrite H.
  destruct (log_open_error _ _); reflexivity.
Qed.

Lemma create_logger_registry now s :
  loggerDict (logging (world (snd (create_logger now s)))) =
    <[strftime now :=
        mk_logger INFO (handlers_of (logging (world s)) (strftime now)
                        ++ match log_open now s with
                           | Some _ => []
                           | None => [log_path (strftime now)]
                           end)]>
      (loggerDict (logging (world s))).
Proof.
  run_create_logger. unfold log_open.
  set (l := logging (world s)). set (ts := strftime now).
  unfold handlers_of, open_log_file, register_logger, log_path. fold ts.
  apply map_eq. intros name.
  destruct (log_open_error l _);
    cbn [file_path world disk logging fst snd];
    destruct (loggerDict l !! ts) as [o|] eqn:Ho;
    try destruct (log_files _ !! _); cbn [loggerDict set_loggerDict set_log_files log_files];
    destruct (decide (name = ts)) as [->|Hne];
    rewrite ?lookup_alter_eq, ?lookup_insert_eq, ?lookup_alter_ne, ?lookup_insert_ne,
            ?lookup_alter_eq, ?lookup_insert_eq, ?Ho, ?app_nil_r by congruence;
    reflexivity.
Qed.

Lemma create_logger_files now s :
  log_files (logging (world (snd (create_logger now s)))) =
    match log_open now s with
    | Some _ => log_files (logging (world s))
    | None =>
        <[log_path (strftime now) :=
            default [] (log_files (logging (world s)) !! log_path (strftime now))]>
          (log_files (logging (world s)))
    end.
Proof.
  run_create_logger. unfold log_open.
  set (l := logging (world s)). set (ts := strftime now).
  unfold open_log_file, register_logger, log_path. fold ts.
  destruct (log_open_error l _);
    cbn [file_path world disk logging fst snd];
    destruct (loggerDict l !! ts) as [o|];
    cbn [loggerDict set_loggerDict set_log_files log_files];
    try reflexivity;
    destruct (log_files l !! _) as [c|] eqn:Hc;
    cbn [loggerDict set_loggerDict set_log_files log_files default];
    try reflexivity; symmetry; apply insert_id; exact Hc.
Qed.

(** ** Records through a logger *)

Lemma emit_repeat r path n files :
  default [] (fold_left (emit r) (repeat path n) files !! path) =
    default [] (files !! path) ++ repeat r n.
Proof.
  revert files. induction n as [|n IH]; intros files; cbn [repeat fold_left].
  - rewrite app_nil_r. reflexivity.
  - rewrite IH. unfold emit. rewrite lookup_insert_eq. cbn [default].
    unfold id. rewrite <- app_assoc. reflexivity.
Qed.

Lemma emit_repeat_other r path n files p :
  p <> path -> fold_left (emit r) (repeat path n) files !! p = files !! p.
Proof.
  intros Hne. revert files. induction n as [|n IH]; intros files; cbn [repeat fold_left].
  - reflexivity.
  - rewrite IH. unfold emit. apply lookup_insert_ne. congruence.
Qed.

Lemma handle_record_registry lvl logger msg l :
  loggerDict (handle_record lvl logger msg l) = loggerDict l.
Proof.
  unfold handle_record. destruct (loggerDict l !! logger) as [o|]; [|reflexivity].
  destruct (_ <=? _); reflexivity.
Qed.

Lemma log_all_registry name rs l :
  loggerDict (fold_left (log_one name) rs l) = loggerDict l.
Proof.
  revert l. induction rs as [|r rs IH]; intros l; cbn [fold_left]; [reflexivity|].
  rewrite IH. apply handle_record_registry.
Qed.

(** Through a logger at level [INFO] with [n] handlers on [path], each
    record at [INFO] or above is appended [n] times to [path], in order,
    and the other log files stay as they are. *)
Lemma log_all_files name path n hs rs l :
  loggerDict l !! name = Some (mk_logger INFO hs) ->
  hs = repeat path n ->
  Forall (fun r => INFO <= levelno r) rs ->
  default [] (log_files (fold_left (log_one name) rs l) !! path) =
    default [] (log_files l !! path) ++ flat_map (fun r => repeat r n) rs /\
  forall p, p <> path -> log_files (fold_left (log_one name) rs l) !! p = log_files l !! p.
Proof.
  intros Hl -> Hrs. revert l Hl.
  induction Hrs as [|r rs Hr _ IH]; intros l Hl; cbn [fold_left flat_map].
  - rewrite app_nil_r. auto.
  - assert (Hstep : log_files (log_one name l r) =
                    fold_left (emit r) (repeat path n) (log_files l)).
    { unfold log_one, handle_record. rewrite Hl. unfold getEffectiveLevel.
      cbn [level handlers]. change (INFO =? NOTSET) with false. cbn iota.
      apply Nat.leb_le in Hr. rewrite Hr. destruct r. reflexivity. }
    destruct (IH (log_one name l r)) as [IH1 IH2].
    { unfold log_one. rewrite handle_record_registry. exact Hl. }
    split.
    + rewrite IH1, Hstep, emit_repeat, <- app_assoc. reflexivity.
    + intros p Hp. rewrite (IH2 p Hp), Hstep. apply emit_repeat_other. exact Hp.
Qed.


(** ** What a handler logs *)

Ltac step_M :=
  cbv beta iota delta [mbind M_bind mret M_ret get_disk modify_disk modify_logging
    set_file_path lift_outcome raise logger_info logger_error logger_log];
  cbn [file_path world disk logging fst snd].

Ltac logged Hs :=
  unfold audit_records, staging_outcome, processing_outcome, error_records;
  rewrite ?Hs; step_M;
  repeat match goal with H : _ = _ |- _ => rewrite H end;
  cbn [fold_left app log_one levelno message]; try reflexivity.

Ltac logged_caught e Hs :=
  logged Hs; destruct (isinstance_Exception e); step_M;
  cbn [fold_left app log_one levelno message]; reflexivity.

(** The logging side when a handler ends, from the await on: the records
    of [audit_records], in order, through the logger of the handler. *)
Lemma resume_logging t env logger s :
  logging (world (snd (resume t env logger s))) =
    fold_left (log_one logger) (audit_records t env (fs (disk (world s))))
      (logging (world s)).
Proof.
  unfold resume, try_except_Exception, after_await, except_block. step_M.
  destruct (request_body env) as [data|e] eqn:Hbody; step_M.
  2:{ logged_caught e Hbody. }
  unfold NamedTemporaryFile. step_M.
  destruct (mkstemp_inner _ _ _ _ _) as [file|e] eqn:Hmk; step_M.
  2:{ logged_caught e Hbody. }
  unfold temp_file_write.
  destruct (write_error env) as [msg|] eqn:Hwrite; step_M.
  1:{ logged_caught (OSError msg) Hbody. }
  unfold temp_file_close.
  destruct (close_error env) as [msg|] eqn:Hclose; step_M.
  1:{ logged_caught (OSError msg) Hbody. }
  rewrite staged_disk.
  unfold new_thickness_file. step_M.
  assert (Hfs : fs (staged file data (disk (world s)))
                = <[file := data]> (fs (disk (world s)))) by reflexivity.
  rewrite !Hfs, lookup_insert_eq. fold (processed file data (disk (world s))).
  destruct (thickness_file env file _) as [new_file|e] eqn:Hctor; step_M.
  2:{ logged_caught e Hbody. }
  unfold call_method. step_M.
  assert (Hfs' : fs (processed file data (disk (world s)))
                 = <[file := data]> (fs (disk (world s)))) by reflexivity.
  rewrite !Hfs'.
  destruct (call _ _ _) as [v|e] eqn:Hcall; step_M.
  2:{ logged_caught e Hbody. }
  unfold os_unlink.
  destruct (unlink_error env) as [msg|] eqn:Hunlink; step_M.
  1:{ logged_caught (OSError msg) Hbody. }
  rewrite Hfs', lookup_insert_eq. step_M.
  logged Hbody.
Qed.

(** The logging side at the end of a run: what [create_logger] left and,
    when it returned, the records of [audit_records] through its logger. *)
Lemma handler_body_logging t env s :
  logging (world (snd (handler_body t env s))) =
    fold_left (log_one (strftime (now env)))
      (match log_open (now env) s with
       | Some _ => []
       | None => audit_records t env (fs (disk (world s)))
       end)
      (logging (world (snd (create_logger (now env) s)))).
Proof.
  rewrite (create_logger_logging_state (now env) s (mk_state None (world s)) eq_refl).
  rewrite handler_body_resume.
  destruct (create_logger_run (now env) (mk_state None (world s))) as [L ->].
  change (log_open (now env) (mk_state None (world s))) with (log_open (now env) s).
  cbn [fst snd].
  destruct (log_open (now env) s); [reflexivity|].
  rewrite resume_logging. reflexivity.
Qed.

Lemma app_logging ep env s :
  logging (world (snd (app ep env s))) =
    fold_left (log_one (strftime (now env)))
      (match log_open (now env) s with
       | Some _ => []
       | None => audit_records (handler_text ep) env (fs (disk (world s)))
       end)
      (logging (world (snd (create_logger (now env) s)))).
Proof. destruct ep; apply handler_body_logging. Qed.

Lemma audit_levels t env (files : gmap string bytes) :
  Forall (fun r => INFO <= levelno r) (audit_records t env files).
Proof.
  assert (Herr : forall e, Forall (fun r => INFO <= levelno r) (error_records t env e)).
  { intros e. unfold error_records. destruct (isinstance_Exception e);
      repeat constructor; cbv; lia. }
  unfold audit_records.
  destruct (request_body env); [|apply Herr].
  destruct (staging_outcome _ _ _); [|apply Herr].
  repeat (constructor; [cbv; lia|]).
  destruct (processing_outcome _ _ _ _); [|apply Herr].
  constructor; [cbv; lia|].
  destruct (unlink_error env); [apply Herr|]. repeat constructor.
Qed.



Lemma registry_ok_handlers l name :
  registry_ok l ->
  handlers_of l name = repeat (log_path name) (length (handlers_of l name)).
Proof.
  intros Hok. apply Forall_eq_repeat, List.Forall_forall. intros h Hin.
  unfold handlers_of in Hin. destruct (loggerDict l !! name) as [o|] eqn:Ho; [|destruct Hin].
  symmetry. exact (Hok name o Ho h Hin).
Qed.










(** ** create_logger *)

(** X17: when it returns, [create_logger] has registered the logger named
    after the rendered timestamp at level [INFO], kept the handlers it had
    and added one on its log file; the log file exists afterwards with
    the content it had, none when it is new. *)
Theorem create_logger_adds_handler now s :
  logger_created now s ->
  loggerDict (logging (world (snd (create_logger now s)))) !! strftime now =
    Some (mk_logger INFO
            (handlers_of (logging (world s)) (strftime now) ++ [log_path (strftime now)])) /\
  log_files (logging (world (snd (create_logger now s)))) !! log_path (strftime now) =
    Some (default [] (log_files (logging (world s)) !! log_path (strftime now))).
Proof.
  intros Hl%logger_created_open.
  rewrite create_logger_registry, create_logger_files, Hl, !lookup_insert_eq. auto.
Qed.

(** X18: [create_logger] leaves the other loggers, the other log files,
    the disk and [file_path] as they are. *)
Theorem create_logger_frame now s :
  (forall name, name <> strftime now ->
     loggerDict (logging (world (snd (create_logger now s)))) !! name =
       loggerDict (logging (world s)) !! name) /\
  (forall path, path <> log_path (strftime now) ->
     log_files (logging (world (snd (create_logger now s)))) !! path =
       log_files (logging (world s)) !! path) /\
  disk (world (snd (create_logger now s))) = disk (world s) /\
  file_path (snd (create_logger now s)) = file_path s.
Proof.
  rewrite create_logger_registry, create_logger_files.
  destruct (create_logger_run now s) as [L ->]. cbn [snd world disk file_path].
  repeat split.
  - intros name Hne. apply lookup_insert_ne. congruence.
  - intros path Hne. destruct (log_open now s); [reflexivity|].
    apply lookup_insert_ne. congruence.
Qed.

Lemma registry_ok_create_logger now s :
  registry_ok (logging (world s)) ->
  registry_ok (logging (world (snd (create_logger now s)))).
Proof.
  intros Hok name o. rewrite create_logger_registry.
  destruct (decide (name = strftime now)) as [->|Hne].
  - rewrite lookup_insert_eq. intros [= <-] h. cbn [handlers].
    rewrite in_app_iff. intros [Hin|Hin].
    + unfold handlers_of in Hin.
      destruct (loggerDict _ !! _) as [o|] eqn:Ho; [|destruct Hin].
      exact (Hok _ o Ho h Hin).
    + destruct (log_open now s); [destruct Hin|].
      destruct Hin as [<-|[]]. reflexivity.
  - rewrite lookup_insert_ne by congruence. apply Hok.
Qed.

Lemma registry_ok_handler_body t env s :
  registry_ok (logging (world s)) ->
  registry_ok (logging (world (snd (handler_body t env s)))).
Proof.
  intros Hok name o. rewrite handler_body_logging, log_all_registry.
  apply (registry_ok_create_logger (now env) s Hok).
Qed.

Lemma registry_ok_empty files oe : registry_ok (mk_logging ∅ files oe).
Proof. intros name o H. cbn in H. rewrite lookup_empty in H. discriminate. Qed.

(** X19: the registry keeps its shape over every request: if every
    handler of every logger writes to the log file named after its
    logger before the request, so it does afterwards. *)
Theorem registry_ok_preserved ep env s :
  registry_ok (logging (world s)) ->
  registry_ok (logging (world (snd (app ep env s)))).
Proof. destruct ep as [r|r]; apply registry_ok_handler_body. Qed.

(** X20: a request appends to the log file of its own logger only. *)
Theorem request_writes_own_log_only ep env s path :
  registry_ok (logging (world s)) ->
  path <> log_path (strftime (now env)) ->
  log_files (logging (world (snd (app ep env s)))) !! path =
    log_files (logging (world s)) !! path.
Proof.
  intros Hok Hne. rewrite app_logging.
  destruct (log_open (now env) s) eqn:Hopen.
  { cbn [fold_left]. rewrite create_logger_files, Hopen. reflexivity. }
  destruct (log_all_files (strftime (now env)) (log_path (strftime (now env)))
              (S (length (handlers_of (logging (world s)) (strftime (now env)))))
              (handlers_of (logging (world s)) (strftime (now env))
                 ++ [log_path (strftime (now env))])
              (audit_records (handler_text ep) env (fs (disk (world s))))
              (logging (world (snd (create_logger (now env) s))))) as [_ H].
  - rewrite create_logger_registry, Hopen. apply lookup_insert_eq.
  - rewrite (registry_ok_handlers _ _ Hok) at 1. symmetry. apply repeat_cons.
  - apply audit_levels.
  - rewrite (H path Hne), create_logger_files, Hopen. apply lookup_insert_ne. congruence.
Qed.

(** ** A logger that cannot be created *)

Lemma Run_open_fails t env msg d o p d' :
  Run t env (Some msg) d o p d' -> o = Exc (OSError msg) /\ p = None /\ d' = d.
Proof. inversion 1; subst; try discriminate. split; [congruence|auto]. Qed.

(** X23: an exception raised by [create_logger], which is called before
    [try], leaves the handler: no response is returned, nothing is staged
    and no record is written. *)
Theorem create_logger_failure_propagates ep env s e :
  fst (create_logger (now env) s) = Exc e ->
  fst (app ep env s) = Exc e /\
  disk (world (snd (app ep env s))) = disk (world s) /\
  file_path (snd (app ep env s)) = None /\
  log_files (logging (world (snd (app ep env s)))) = log_files (logging (world s)).
Proof.
  intros He. pose proof (app_run ep env s) as R.
  pose proof (app_logging ep env s) as HL. pose proof (create_logger_files (now env) s) as HF.
  destruct (create_logger_run (now env) s) as [L E]. rewrite E in He. cbn [fst] in He.
  destruct (log_open (now env) s) as [msg|]; [|discriminate].
  injection He as <-. apply Run_open_fails in R as (-> & -> & ->).
  repeat split. rewrite HL. cbn [fold_left]. exact HF.
Qed.

End Log.

(** * Two more general facts *)

(** X21: two calls of [create_logger] that return hand back the same
    logger exactly when their clock readings fall within the same
    second. *)
Theorem loggers_shared_within_second now1 now2 s1 s2 :
  valid_datetime now1 -> valid_datetime now2 ->
  logger_created now1 s1 -> logger_created now2 s2 ->
  (fst (create_logger now1 s1) = fst (create_logger now2 s2) <-> same_second now1 now2).
Proof. apply create_logger_shared_iff. Qed.

(** X22: whatever failed and whichever endpoint was called, the
    [problematic_file] of an Error Record is the text [Temporary file not
    created]. *)
Theorem problematic_file_is_placeholder {Value : Type} ep (env : Env Value) s m pf :
  fst (app ep env s) = Val (ErrorRecord m pf) -> pf = "Temporary file not created".
Proof. apply error_record_names_placeholder. Qed.

(** ** The further theorems at sample requests *)



Lemma failed_staging_leaves_file_witness :
  logger_created (now env_disk_full) initial_state /\
  request_body env_disk_full = Val upload /\
  mkstemp_inner (gettempdir env_disk_full) (suffix (handler_text (Data txt_tablebody)))
    (candidate_names env_disk_full) (open_error env_disk_full)
    (fs (disk (world initial_state))) = Val "/tmp/tmpabcd1234.txt" /\
  staging_outcome env_disk_full (suffix (handler_text (Data txt_tablebody)))
    (fs (disk (world initial_state))) = Exc (OSError "[Errno 28] No space left on device") /\
  fst (app (Data txt_tablebody) env_disk_full initial_state) =
    Val (ErrorRecord (exn_str (OSError "[Errno 28] No space left on device"))
           "Temporary file not created") /\
  is_Some (fs (disk (world (snd (app (Data txt_tablebody) env_disk_full initial_state))))
             !! "/tmp/tmpabcd1234.txt") /\
  file_path (snd (app (Data txt_tablebody) env_disk_full initial_state)) = None.
Proof.
  split; [reflexivity|]. split; [reflexivity|]. split; [reflexivity|]. split; [reflexivity|].
  apply (failed_staging_leaves_file (Data txt_tablebody) env_disk_full initial_state
           upload "/tmp/tmpabcd1234.txt" (OSError "[Errno 28] No space left on device"));
    reflexivity.
Defined.


Lemma unread_body_stages_nothing_witness :
  request_body env_cancelled = Exc CancelledError /\
  disk (world (snd (app (Data txt_databasevaluesbody) env_cancelled state_with_file))) =
    disk (world state_with_file) /\
  file_path (snd (app (Data txt_databasevaluesbody) env_cancelled state_with_file)) = None.
Proof.
  split; [reflexivity|].
  apply (unread_body_stages_nothing (Data txt_databasevaluesbody) env_cancelled
           state_with_file CancelledError).
  reflexivity.
Defined.

Lemma processor_only_after_staging_witness :
  In (EvProcess "/tmp/tmpabcd1234.txt" (Some upload))
     (events_of_run initial_state (snd (app (Data txt_tablebody) env_upload initial_state))) /\
  exists data,
    request_body env_upload = Val data /\
    staging_outcome env_upload (suffix (handler_text (Data txt_tablebody)))
      (fs (disk (world initial_state))) = Val "/tmp/tmpabcd1234.txt" /\
    Some upload = Some data.
Proof.
  assert (H : In (EvProcess "/tmp/tmpabcd1234.txt" (Some upload))
                (events_of_run initial_state
                   (snd (app (Data txt_tablebody) env_upload initial_state))))
    by (vm_compute; auto 10).
  split; [exact H|].
  exact (processor_only_after_staging (Data txt_tablebody) env_upload initial_state
           "/tmp/tmpabcd1234.txt" (Some upload) H).
Defined.

Lemma staged_path_is_fresh_witness :
  In (EvCreate "/tmp/tmpefgh5678.xlsx")
     (events_of_run state_with_file
        (snd (app (Data xlsx_tablebody) env_upload state_with_file))) /\
  fs (disk (world state_with_file)) !! "/tmp/tmpefgh5678.xlsx" = None /\
  exists name, In name (candidate_names env_upload) /\
    "/tmp/tmpefgh5678.xlsx" =
      temp_path (gettempdir env_upload) name (suffix (handler_text (Data xlsx_tablebody))).
Proof.
  assert (H : In (EvCreate "/tmp/tmpefgh5678.xlsx")
                (events_of_run state_with_file
                   (snd (app (Data xlsx_tablebody) env_upload state_with_file))))
    by (vm_compute; auto 10).
  split; [exact H|].
  exact (staged_path_is_fresh (Data xlsx_tablebody) env_upload state_with_file
           "/tmp/tmpefgh5678.xlsx" H).
Defined.

Lemma leaked_files_have_distinct_paths_witness :
  fst (app (Data xlsx_tablebody) env_empty_upload initial_state) =
    Val (ErrorRecord "No columns to parse from file" "Temporary file not created") /\
  In (EvCreate "/tmp/tmpabcd1234.xlsx")
     (events_of_run initial_state
        (snd (app (Data xlsx_tablebody) env_empty_upload initial_state))) /\
  In (EvCreate "/tmp/tmpefgh5678.xlsx")
     (events_of_run (snd (app (Data xlsx_tablebody) env_empty_upload initial_state))
        (snd (app (Data xlsx_tablebody) env_empty_upload
                (snd (app (Data xlsx_tablebody) env_empty_upload initial_state))))) /\
  "/tmp/tmpabcd1234.xlsx" <> "/tmp/tmpefgh5678.xlsx".
Proof.
  assert (H1 : In (EvCreate "/tmp/tmpabcd1234.xlsx")
                 (events_of_run initial_state
                    (snd (app (Data xlsx_tablebody) env_empty_upload initial_state))))
    by (vm_compute; auto 10).
  assert (H2 : In (EvCreate "/tmp/tmpefgh5678.xlsx")
                 (events_of_run
                    (snd (app (Data xlsx_tablebody) env_empty_upload initial_state))
                    (snd (app (Data xlsx_tablebody) env_empty_upload
                            (snd (app (Data xlsx_tablebody) env_empty_upload
                                    initial_state))))))
    by (vm_compute; auto 10).
  split; [reflexivity|]. split; [exact H1|]. split; [exact H2|].
  exact (leaked_files_have_distinct_paths (Data xlsx_tablebody) (Data xlsx_tablebody)
           env_empty_upload env_empty_upload initial_state
           "No columns to parse from file" "Temporary file not created"
           "/tmp/tmpabcd1234.xlsx" "/tmp/tmpefgh5678.xlsx" eq_refl H1 H2).
Defined.






Lemma registry_ok_preserved_witness :
  registry_ok (logging (world initial_state)) /\
  registry_ok (logging (world (snd (app (Data xlsx_tablebody) env_upload initial_state)))).
Proof.
  split; [apply registry_ok_empty|].
  apply (registry_ok_preserved (Data xlsx_tablebody) env_upload initial_state).
  apply registry_ok_empty.
Defined.

Lemma create_logger_adds_handler_witness :
  logger_created clock_later state_on_resume /\
  loggerDict (logging (world (snd (create_logger clock_later state_on_resume))))
    !! strftime clock_later =
    Some (mk_logger INFO
            (handlers_of (logging (world state_on_resume)) (strftime clock_later)
             ++ [log_path (strftime clock_later)])) /\
  log_files (logging (world (snd (create_logger clock_later state_on_resume))))
    !! log_path (strftime clock_later) =
    Some (default [] (log_files (logging (world state_on_resume))
                        !! log_path (strftime clock_later))).
Proof.
  split; [reflexivity|].
  apply (create_logger_adds_handler clock_later state_on_resume). reflexivity.
Defined.

Lemma request_writes_own_log_only_witness :
  registry_ok (logging (world state_next_day)) /\
  "./Logs/2024-05-16_09-00-00.log" <> log_path (strftime (now env_upload)) /\
  log_files (logging (world state_next_day)) !! "./Logs/2024-05-16_09-00-00.log" =
    Some [mk_record INFO "Received TXT data table request.";
          mk_record INFO "Temporary TXT file created: /tmp/tmpabcd1234.txt";
          mk_record INFO "Processed txt file and generated DataTable.";
          mk_record INFO "Temporary TXT file deleted at /tmp/tmpabcd1234.txt"] /\
  log_files (logging (world (snd (app (Data xlsx_tablebody) env_upload state_next_day))))
    !! "./Logs/2024-05-16_09-00-00.log" =
  log_files (logging (world state_next_day)) !! "./Logs/2024-05-16_09-00-00.log".
Proof.
  assert (H : registry_ok (logging (world state_next_day)))
    by (apply (registry_ok_handler_body (data_text txt_tablebody)), registry_ok_empty).
  assert (Hne : "./Logs/2024-05-16_09-00-00.log" <> log_path (strftime (now env_upload)))
    by (vm_compute; discriminate).
  split; [exact H|]. split; [exact Hne|]. split; [reflexivity|].
  exact (request_writes_own_log_only (Data xlsx_tablebody) env_upload state_next_day
           "./Logs/2024-05-16_09-00-00.log" H Hne).
Defined.

Lemma loggers_shared_within_second_witness :
  valid_datetime clock /\ valid_datetime clock_later /\
  logger_created clock initial_state /\ logger_created clock_later initial_state /\
  (fst (create_logger clock initial_state) = fst (create_logger clock_later initial_state)
   <-> same_second clock clock_later).
Proof.
  assert (V1 : valid_datetime clock) by (repeat split; reflexivity).
  assert (V2 : valid_datetime clock_later) by (repeat split; reflexivity).
  split; [exact V1|]. split; [exact V2|]. split; [reflexivity|]. split; [reflexivity|].
  exact (loggers_shared_within_second clock clock_later initial_state initial_state V1 V2
           eq_refl eq_refl).
Defined.

Lemma problematic_file_is_placeholder_witness :
  fst (app (Data txt_databasevaluesbody) env_empty_upload initial_state) =
    Val (ErrorRecord "No columns to parse from file" "Temporary file not created") /\
  "Temporary file not created" = "Temporary file not created".
Proof.
  split; [reflexivity|].
  apply (problematic_file_is_placeholder (Data txt_databasevaluesbody) env_empty_upload
           initial_state "No columns to parse from file" "Temporary file not created").
  reflexivity.
Defined.

Lemma create_logger_failure_propagates_witness :
  fst (create_logger (now env_upload) state_without_descriptors) =
    Exc (OSError "[Errno 24] Too many open files") /\
  fst (app (Data xlsx_tablebody) env_upload state_without_descriptors) =
    Exc (OSError "[Errno 24] Too many open files") /\
  disk (world (snd (app (Data xlsx_tablebody) env_upload state_without_descriptors))) =
    disk (world state_without_descriptors) /\
  file_path (snd (app (Data xlsx_tablebody) env_upload state_without_descriptors)) = None /\
  log_files (logging (world (snd (app (Data xlsx_tablebody) env_upload
                                    state_without_descriptors)))) =
    log_files (logging (world state_without_descriptors)).
Proof.
  split; [reflexivity|].
  apply (create_logger_failure_propagates (Data xlsx_tablebody) env_upload
           state_without_descriptors (OSError "[Errno 24] Too many open files")).
  reflexivity.
Defined.
